(** * Tri-stage learning-rate scheduler ([scheduler.py])

    A shallow embedding of [LearningRateScheduler] and
    [TriStageLRScheduler], and the properties of the stage decision,
    of construction and of [step].

    Modelling choices.
    - A Python [float] is a binary64 value: Rocq's primitive [float],
      whose [+ - * /] are the IEEE operations Python uses.  Arguments
      annotated [float] are floats (the integer defaults [0] are [0.0]).
    - A Python [int] is a [Z].
    - [math.exp] and [math.log] call the C library; its two functions are
      the fields of the class [Libm], and every general theorem holds for
      every instance.  The wrappers that CPython puts around them
      ([math_1], [m_log]) are written out, since they decide which
      exception is raised.
    - An exception is the [Raise] case of [result]; a method that mutates
      [self] or the optimizer returns the new object.  The optimizer is
      reached through [self.optimizer] only, so it is a field of the
      scheduler record.
    - A parameter group is a Python dict: a [gmap] from keys to the
      float-valued options of the group. *)

From Stdlib Require Import ZArith Lia Bool.
From Stdlib Require Import PrimFloat SpecFloat FloatOps.
From stdpp Require Import base option list gmap strings.

Open Scope Z_scope.

(** ** Exceptions *)

Inductive exn : Set :=
| AssertionError
| ZeroDivisionError
| ValueError (msg : string)
| OverflowError
| AttributeError
| KeyError.

Inductive result (A : Type) : Type :=
| Ok (a : A)
| Raise (e : exn).

Arguments Ok {A} a.
Arguments Raise {A} e.

(** Sequencing: the first exception ends the computation.  The
    notations [x ← m; k] and ['(x, y) ← m; k] are those of the monad
    classes. *)
#[export] Instance result_ret : MRet result := fun A a => Ok a.
#[export] Instance result_bind : MBind result := fun A B k m =>
  match m with
  | Ok a => k a
  | Raise e => Raise e
  end.

(** [assert c] *)
Definition assert (c : bool) : result unit :=
  if c then Ok tt else Raise AssertionError.

Fixpoint mapM {A B : Type} (f : A -> result B) (l : list A) : result (list B) :=
  match l with
  | [] => Ok []
  | a :: l' => b ← f a; bs ← mapM f l'; Ok (b :: bs)
  end.

(** ** Python's numeric operations *)

(** The double nearest to an integer (ties to even). *)
Definition Z2F (z : Z) : float :=
  SF2Prim (binary_normalize prec emax z 0 false).

(** The first magnitude that rounds beyond the largest double. *)
Definition int_max_float : Z := 2 ^ 1024 - 2 ^ 970.

(** Conversion of an [int] operand of a float operation:
    "OverflowError: int too large to convert to float". *)
Definition float_of_int (z : Z) : result float :=
  if Z.abs z <? int_max_float then Ok (Z2F z) else Raise OverflowError.

(** [int(x)] of a float: truncation toward zero. *)
Definition int_of_float (x : float) : result Z :=
  match Prim2SF x with
  | S754_zero _ => Ok 0
  | S754_infinity _ => Raise OverflowError
  | S754_nan => Raise (ValueError "cannot convert float NaN to integer")
  | S754_finite s m e =>
      let v := Z.shiftl (Z.pos m) e in
      Ok (if s then - v else v)
  end.

(** [x / y] on floats: "ZeroDivisionError: float division by zero". *)
Definition truediv (x y : float) : result float :=
  if (y =? 0)%float then Raise ZeroDivisionError else Ok (x / y)%float.

(** [sum(t)] of a 3-tuple of floats, accumulated from the integer [0]
    left to right (CPython before 3.12; later versions compensate the
    rounding errors of the additions). *)
Definition sum3 (t : float * float * float) : float :=
  let '(a, b, c) := t in (0 + a + b + c)%float.

(** The C library. *)
Class Libm : Set := {
  exp : float -> float;
  log : float -> float
}.

(** CPython's [math_1]: the result of the C function decides the error. *)
Definition math_1 (func : float -> float) (can_overflow : bool) (x : float)
  : result float :=
  let r := func x in
  if is_nan r && negb (is_nan x) then Raise (ValueError "math domain error")
  else if is_infinity r && is_finite x then
    Raise (if can_overflow then OverflowError
           else ValueError "math domain error")
  else Ok r.

(** CPython's [m_log]: the C [log] is called on finite positive input
    only. *)
Definition m_log `{Libm} (x : float) : float :=
  if is_finite x then
    if (0 <? x)%float then log x
    else if (x =? 0)%float then neg_infinity else nan
  else if is_nan x then x
  else if (0 <? x)%float then x
  else nan.

Definition math_log `{Libm} (x : float) : result float := math_1 m_log false x.
Definition math_exp `{Libm} (x : float) : result float := math_1 exp true x.

(** ** Data model *)

Record Optimizer : Type := {
  param_groups : list (gmap string float)
}.

Record TriStageLRScheduler : Type := {
  optimizer : Optimizer;
  lr : float;
  peak_lr : float;
  init_lr : float;
  final_lr : float;
  warmup_steps : Z;
  hold_steps : Z;
  decay_steps : Z;
  warmup_rate : float;
  decay_factor : float;
  update_steps : Z;
  _last_lr : option (list float)   (* [None]: the attribute does not exist *)
}.

(** The optional [val_loss] tensor of [step]. *)
Definition FloatTensor : Type := list float.

(** ** LearningRateScheduler *)

Definition set_lr (opt : Optimizer) (r : float) : Optimizer :=
  {| param_groups := map (fun g => <["lr" := r]> g) (param_groups opt) |}.

(** [g['lr']] *)
Definition group_lr (g : gmap string float) : result float :=
  match g !! "lr" with
  | Some r => Ok r
  | None => Raise KeyError
  end.

(** [get_lr]: the loop returns at its first iteration; with no group
    the method falls off its end and returns [None]. *)
Definition get_lr (self : TriStageLRScheduler) : result (option float) :=
  match param_groups (optimizer self) with
  | [] => Ok None
  | g :: _ => r ← group_lr g; Ok (Some r)
  end.

Definition get_last_lr (self : TriStageLRScheduler) : result (list float) :=
  match _last_lr self with
  | Some l => Ok l
  | None => Raise AttributeError
  end.

(** ** TriStageLRScheduler *)

(** The arguments of the constructor, with their defaults. *)
Record init_args : Type := {
  a_optimizer : Optimizer;
  a_peak_lr : float;
  a_init_lr_scale : option float;
  a_init_lr : float;
  a_final_lr_scale : option float;
  a_final_lr : float;
  a_phase_ratio : option (float * float * float);
  a_warmup_steps : Z;
  a_hold_steps : Z;
  a_decay_steps : Z;
  a_total_steps : Z
}.

Definition default_args (opt : Optimizer) (peak : float) : init_args :=
  {| a_optimizer := opt; a_peak_lr := peak;
     a_init_lr_scale := None; a_init_lr := 0%float;
     a_final_lr_scale := None; a_final_lr := 0%float;
     a_phase_ratio := None;
     a_warmup_steps := 0; a_hold_steps := 0; a_decay_steps := 0;
     a_total_steps := 0 |}.

Section Scheduler.
Context `{Libm}.

(** [__init__].  The two [isinstance] assertions hold by typing.  The
    [else 0] of [warmup_rate] is the float [0.0]; that rate is read in the
    WARMUP stage only, which a schedule with [warmup_steps = 0] never
    enters. *)
Definition __init__ (a : init_args) : result TriStageLRScheduler :=
  let peak := a_peak_lr a in
  init ← match a_init_lr_scale a with
          | Some s => _ ← assert (0 <? s)%float; Ok (s * peak)%float
          | None => Ok (a_init_lr a)
          end;
  '(final, final_lr_scale) ←
      match a_final_lr_scale a with
      | Some s => _ ← assert (0 <? s)%float; Ok ((s * peak)%float, s)
      | None => q ← truediv (a_final_lr a) peak; Ok (a_final_lr a, q)
      end;
  '(w, h, d) ←
      match a_phase_ratio a with
      | Some (r0, r1, r2) =>
          _ ← assert (0 <? a_total_steps a);
          _ ← assert (sum3 (r0, r1, r2) =? 1)%float;
          t ← float_of_int (a_total_steps a);
          w ← int_of_float (t * r0)%float;
          h ← int_of_float (t * r1)%float;
          d ← int_of_float (t * r2)%float;
          Ok (w, h, d)
      | None => Ok (a_warmup_steps a, a_hold_steps a, a_decay_steps a)
      end;
  _ ← assert (0 <? w + h + d);
  wr ← (if negb (w =? 0) then
           wf ← float_of_int w; truediv (peak - init)%float wf
         else Ok 0%float);
  l ← math_log final_lr_scale;
  df ← (dfl ← float_of_int d; truediv (- l)%float dfl);
  Ok {| optimizer := a_optimizer a;
        lr := init;
        peak_lr := peak;
        init_lr := init;
        final_lr := final;
        warmup_steps := w;
        hold_steps := h;
        decay_steps := d;
        warmup_rate := wr;
        decay_factor := df;
        update_steps := 0;
        _last_lr := None |}.

(** [_decide_stage]: the stage tag and the number of steps in the stage. *)
Definition _decide_stage (self : TriStageLRScheduler) : Z * Z :=
  if update_steps self <? warmup_steps self then (0, update_steps self)
  else
    let offset := warmup_steps self in
    if update_steps self <? offset + hold_steps self then
      (1, update_steps self - offset)
    else
      let offset := offset + hold_steps self in
      if update_steps self <=? offset + decay_steps self then
        (2, update_steps self - offset)
      else
        let offset := offset + decay_steps self in
        (3, update_steps self - offset).

(** The right-hand side assigned to [self.lr] in [step]. *)
Definition stage_lr (self : TriStageLRScheduler) (stage steps_in_stage : Z)
  : result float :=
  if stage =? 0 then
    k ← float_of_int steps_in_stage;
    Ok (init_lr self + warmup_rate self * k)%float
  else if stage =? 1 then Ok (peak_lr self)
  else if stage =? 2 then
    k ← float_of_int steps_in_stage;
    e ← math_exp (- decay_factor self * k)%float;
    Ok (peak_lr self * e)%float
  else if stage =? 3 then Ok (final_lr self)
  else Raise (ValueError "Undefined stage").

(** [step]: the new scheduler (with its optimizer) and the returned rate. *)
Definition step (self : TriStageLRScheduler) (val_loss : option FloatTensor)
  : result (TriStageLRScheduler * float) :=
  let '(stage, steps_in_stage) := _decide_stage self in
  r ← stage_lr self stage steps_in_stage;
  let opt := set_lr (optimizer self) r in
  last ← mapM group_lr (param_groups opt);
  Ok ({| optimizer := opt;
         lr := r;
         peak_lr := peak_lr self;
         init_lr := init_lr self;
         final_lr := final_lr self;
         warmup_steps := warmup_steps self;
         hold_steps := hold_steps self;
         decay_steps := decay_steps self;
         warmup_rate := warmup_rate self;
         decay_factor := decay_factor self;
         update_steps := update_steps self + 1;
         _last_lr := Some last |}, r).

(** [n] successive calls of [step], each with its own [val_loss]; the
    rates are collected in call order.  The first exception ends the run. *)
Fixpoint steps (self : TriStageLRScheduler) (losses : list (option FloatTensor))
  : result (TriStageLRScheduler * list float) :=
  match losses with
  | [] => Ok (self, [])
  | v :: vs =>
      '(self1, r) ← step self v;
      '(self2, rs) ← steps self1 vs;
      Ok (self2, r :: rs)
  end.

(** The operations a caller has on a scheduler. *)
Inductive call : Type :=
| CallStep (val_loss : option FloatTensor)
| CallGetLr
| CallGetLastLr
| CallSetLr (r : float).

(** The scheduler after a call ([set_lr] is applied to its optimizer). *)
Definition exec (c : call) (self : TriStageLRScheduler)
  : result TriStageLRScheduler :=
  match c with
  | CallStep v => '(self', _) ← step self v; Ok self'
  | CallGetLr => _ ← get_lr self; Ok self
  | CallGetLastLr => _ ← get_last_lr self; Ok self
  | CallSetLr r =>
      Ok {| optimizer := set_lr (optimizer self) r;
            lr := lr self;
            peak_lr := peak_lr self;
            init_lr := init_lr self;
            final_lr := final_lr self;
            warmup_steps := warmup_steps self;
            hold_steps := hold_steps self;
            decay_steps := decay_steps self;
            warmup_rate := warmup_rate self;
            decay_factor := decay_factor self;
            update_steps := update_steps self;
            _last_lr := _last_lr self |}
  end.

(** A sequence of calls, in order. *)
Fixpoint execs (cs : list call) (self : TriStageLRScheduler)
  : result TriStageLRScheduler :=
  match cs with
  | [] => Ok self
  | c :: cs' => self1 ← exec c self; execs cs' self1
  end.

(** Whether a call is a call of [step]. *)
Definition is_step (c : call) : bool :=
  match c with
  | CallStep _ => true
  | _ => false
  end.

End Scheduler.

(** ** A C library to run the scheduler with

    [exp] and [log] are computed in fixed point with 256 fractional bits
    and then rounded to a double, once: the result is the double nearest
    to the exact value unless that value lies within [2^-250] of the
    middle of two doubles. *)

Module RefLibm.

(** The integer [a] stands for [a / 2^p]. *)
Definition p : Z := 256.
Definition one : Z := 2 ^ p.

Definition round (a e : Z) : float :=
  SF2Prim (binary_normalize prec emax a e false).

(** [atanh t = t + t^3/3 + t^5/5 + ...], for [|t| <= 1/3]. *)
Fixpoint atanh_series (fuel : nat) (t2 pow k acc : Z) : Z :=
  match fuel with
  | O => acc
  | S fuel' => atanh_series fuel' t2 (pow * t2 / one) (k + 2) (acc + pow / k)
  end.

Definition atanh (t : Z) : Z := atanh_series 100 (t * t / one) t 1 0.

(** [ln 2 = 2 atanh (1/3)] *)
Definition ln2 : Z := 2 * atanh (one / 3).

(** [ln (m * 2^e)]: with [m = f * 2^n] and [1 <= f < 2],
    [ln f = 2 atanh ((f - 1) / (f + 1))]. *)
Definition ln_pos (m : positive) (e : Z) : Z :=
  let n := Z.log2 (Z.pos m) in
  let t := (Z.pos m - 2 ^ n) * one / (Z.pos m + 2 ^ n) in
  2 * atanh t + (e + n) * ln2.

Definition log (x : float) : float :=
  match Prim2SF x with
  | S754_zero _ => neg_infinity
  | S754_infinity false => infinity
  | S754_finite false m e => round (ln_pos m e) (- p)
  | _ => nan
  end.

(** [e^r = 1 + r + r^2/2! + ...], for [0 <= r < ln 2]. *)
Fixpoint exp_series (fuel : nat) (r term n acc : Z) : Z :=
  match fuel with
  | O => acc
  | S fuel' => exp_series fuel' r (term * r / one / n) (n + 1) (acc + term)
  end.

(** [e^x = 2^k * e^r] with [x = k * ln 2 + r]; beyond [|x| = 1100] the
    result is out of the double range. *)
Definition exp_fix (x : Z) : float :=
  if 1100 * one <? x then infinity
  else if x <? - (1100 * one) then 0%float
  else
    let k := x / ln2 in
    let r := x - k * ln2 in
    round (exp_series 80 r one 1 0) (k - p).

Definition exp (x : float) : float :=
  match Prim2SF x with
  | S754_zero _ => 1%float
  | S754_infinity false => infinity
  | S754_infinity true => 0%float
  | S754_nan => nan
  | S754_finite s m e =>
      let a := Z.shiftl (Z.pos m) (e + p) in
      exp_fix (if s then - a else a)
  end.

End RefLibm.

Definition ref_libm : Libm := {| exp := RefLibm.exp; log := RefLibm.log |}.

(** ** Scenarios *)

(** An optimizer with two parameter groups. *)
Definition two_groups : Optimizer :=
  {| param_groups := [ {[ "lr" := 0x1.999999999999ap-4%float ]};
                       {[ "lr" := 0x1.47ae147ae147bp-7%float;
                          "weight_decay" := 0%float ]} ] |}.

(** The doubles nearest to [1e-3], [1e-5] and [5e-4]. *)
Definition f1e_3 : float := 0x1.0624dd2f1a9fcp-10%float.
Definition f1e_5 : float := 0x1.4f8b588e368f1p-17%float.
Definition f5e_4 : float := 0x1.0624dd2f1a9fcp-11%float.

(** [peak_rate=1e-3, init_rate=0, final_rate=1e-5, warmup_steps=2,
    hold_steps=1, decay_steps=2] *)
Definition scenario : init_args :=
  {| a_optimizer := two_groups; a_peak_lr := f1e_3;
     a_init_lr_scale := None; a_init_lr := 0%float;
     a_final_lr_scale := None; a_final_lr := f1e_5;
     a_phase_ratio := None;
     a_warmup_steps := 2; a_hold_steps := 1; a_decay_steps := 2;
     a_total_steps := 0 |}.

(** The scenario with [decay_steps=0]. *)
Definition scenario_no_decay : init_args :=
  {| a_optimizer := two_groups; a_peak_lr := f1e_3;
     a_init_lr_scale := None; a_init_lr := 0%float;
     a_final_lr_scale := None; a_final_lr := f1e_5;
     a_phase_ratio := None;
     a_warmup_steps := 2; a_hold_steps := 1; a_decay_steps := 0;
     a_total_steps := 0 |}.

(** The scenario with [final_lr] left at its default. *)
Definition scenario_default_final : init_args :=
  {| a_optimizer := two_groups; a_peak_lr := f1e_3;
     a_init_lr_scale := None; a_init_lr := 0%float;
     a_final_lr_scale := None; a_final_lr := 0%float;
     a_phase_ratio := None;
     a_warmup_steps := 2; a_hold_steps := 1; a_decay_steps := 2;
     a_total_steps := 0 |}.

(** [phase_ratio=(0.1, 0.1, 0.7)] with [total_steps=100]. *)
Definition scenario_bad_ratio : init_args :=
  {| a_optimizer := two_groups; a_peak_lr := f1e_3;
     a_init_lr_scale := None; a_init_lr := 0%float;
     a_final_lr_scale := None; a_final_lr := f1e_5;
     a_phase_ratio := Some (0x1.999999999999ap-4, 0x1.999999999999ap-4,
                            0x1.6666666666666p-1)%float;
     a_warmup_steps := 0; a_hold_steps := 0; a_decay_steps := 0;
     a_total_steps := 100 |}.

(** [peak_lr=1.0, final_lr_scale=sys.float_info.max, decay_steps=11] *)
Definition scenario_huge_scale : init_args :=
  {| a_optimizer := two_groups; a_peak_lr := 1%float;
     a_init_lr_scale := None; a_init_lr := 0%float;
     a_final_lr_scale := Some 0x1.fffffffffffffp+1023%float;
     a_final_lr := 0%float;
     a_phase_ratio := None;
     a_warmup_steps := 0; a_hold_steps := 0; a_decay_steps := 11;
     a_total_steps := 0 |}.

(** The rates of [n] calls of [step] on a fresh schedule. *)
Definition fresh_rates `{Libm} (a : init_args) (n : nat) : result (list float) :=
  self ← __init__ a;
  '(_, rs) ← steps self (replicate n None);
  Ok rs.

(** The expected sequence of the concrete scenario, as the specification
    words it: [decay_factor = -ln(1e-5/1e-3)/2], and the fifth rate is
    either [1e-5] or the boundary value computed with [exp]. *)
Definition spec_decay_factor `{Libm} : float :=
  (- log (f1e_5 / f1e_3) / 2)%float.

Definition spec_boundary `{Libm} : float :=
  (f1e_3 * exp (- spec_decay_factor * 2))%float.

Definition spec_rates `{Libm} (step5 : float) : list float :=
  [ 0%float; f5e_4; f1e_3;
    (f1e_3 * exp (- spec_decay_factor * 1))%float;
    step5;
    f1e_5 ].

(** ** Invariants of a schedule *)

(** The fields that only [__init__] assigns. *)
Definition same_config (s s' : TriStageLRScheduler) : Prop :=
  peak_lr s' = peak_lr s /\ init_lr s' = init_lr s /\
  final_lr s' = final_lr s /\
  warmup_steps s' = warmup_steps s /\ hold_steps s' = hold_steps s /\
  decay_steps s' = decay_steps s /\
  warmup_rate s' = warmup_rate s /\ decay_factor s' = decay_factor s.

(** The phase lengths that [__init__] has converted to [float]. *)
Definition convertible (s : TriStageLRScheduler) : Prop :=
  (warmup_steps s <> 0 -> Z.abs (warmup_steps s) < int_max_float) /\
  Z.abs (decay_steps s) < int_max_float.

(** All the parameter groups carry the rate [r]. *)
Definition groups_at (r : float) (opt : Optimizer) : Prop :=
  Forall (fun g : gmap string float => g !! "lr" = Some r) (param_groups opt).

(** The stage tags. *)
Definition WARMUP : Z := 0.
Definition HOLD : Z := 1.
Definition DECAY : Z := 2.
Definition FINAL : Z := 3.

(** The scheduler that a call of [step] leaves when it has computed the
    rate [r]: the rate is in [lr] and in every group, the counter is
    advanced, and the snapshot holds one entry per group. *)
Definition after_step (self : TriStageLRScheduler) (r : float)
  : TriStageLRScheduler :=
  {| optimizer := set_lr (optimizer self) r;
     lr := r;
     peak_lr := peak_lr self;
     init_lr := init_lr self;
     final_lr := final_lr self;
     warmup_steps := warmup_steps self;
     hold_steps := hold_steps self;
     decay_steps := decay_steps self;
     warmup_rate := warmup_rate self;
     decay_factor := decay_factor self;
     update_steps := update_steps self + 1;
     _last_lr := Some (replicate (length (param_groups (optimizer self))) r) |}.

(** A schedule with the counter [u] and the phase lengths [w], [h], [d]. *)
Definition sched (u w h d : Z) : TriStageLRScheduler :=
  {| optimizer := two_groups;
     lr := 0%float;
     peak_lr := f1e_3;
     init_lr := 0%float;
     final_lr := f1e_5;
     warmup_steps := w;
     hold_steps := h;
     decay_steps := d;
     warmup_rate := f5e_4;
     decay_factor := 1%float;
     update_steps := u;
     _last_lr := None |}.

(** The schedule that [__init__] builds for [scenario] when the decay
    factor comes out as [df]. *)
Definition scenario_built (df : float) : TriStageLRScheduler :=
  {| optimizer := two_groups;
     lr := 0%float;
     peak_lr := f1e_3;
     init_lr := 0%float;
     final_lr := f1e_5;
     warmup_steps := 2;
     hold_steps := 1;
     decay_steps := 2;
     warmup_rate := f5e_4;
     decay_factor := df;
     update_steps := 0;
     _last_lr := None |}.

(** With [ref_libm]: the schedule built ([decay_factor] is
    2.3025850929940455), the rates of its first seven calls, and the
    schedule after the first [n] of them. *)
Definition scenario_fresh : TriStageLRScheduler :=
  scenario_built 0x1.26bb1bbb55515p+1%float.

Definition scenario_rates : list float :=
  [ 0%float; f5e_4; f1e_3; f1e_3;
    0x1.a36e2eb1c432ep-14%float;     (* 1.0000000000000002e-04 *)
    0x1.4f8b588e368f3p-17%float;     (* 1.0000000000000004e-05 *)
    f1e_5 ].

Definition scenario_after (n : nat) : TriStageLRScheduler :=
  fold_left after_step (take n scenario_rates) scenario_fresh.

(** ** Further optimizers and schedules *)

(** An optimizer with no parameter group, and one whose first group has
    no rate yet. *)
Definition no_groups : Optimizer := {| param_groups := [] |}.

Definition unset_groups : Optimizer :=
  {| param_groups := [ {[ "weight_decay" := 0x1p-7%float ]};
                       {[ "lr" := 1%float ]} ] |}.

(** The schedule [self] bound to the optimizer [opt]. *)
Definition with_optimizer (self : TriStageLRScheduler) (opt : Optimizer)
  : TriStageLRScheduler :=
  {| optimizer := opt;
     lr := lr self;
     peak_lr := peak_lr self;
     init_lr := init_lr self;
     final_lr := final_lr self;
     warmup_steps := warmup_steps self;
     hold_steps := hold_steps self;
     decay_steps := decay_steps self;
     warmup_rate := warmup_rate self;
     decay_factor := decay_factor self;
     update_steps := update_steps self;
     _last_lr := _last_lr self |}.

(** The schedule [self] after an assignment to [self.lr], to
    [self.update_steps], to [self._last_lr]. *)
Definition with_lr (self : TriStageLRScheduler) (r : float)
  : TriStageLRScheduler :=
  {| optimizer := optimizer self;
     lr := r;
     peak_lr := peak_lr self;
     init_lr := init_lr self;
     final_lr := final_lr self;
     warmup_steps := warmup_steps self;
     hold_steps := hold_steps self;
     decay_steps := decay_steps self;
     warmup_rate := warmup_rate self;
     decay_factor := decay_factor self;
     update_steps := update_steps self;
     _last_lr := _last_lr self |}.

Definition with_update_steps (self : TriStageLRScheduler) (u : Z)
  : TriStageLRScheduler :=
  {| optimizer := optimizer self;
     lr := lr self;
     peak_lr := peak_lr self;
     init_lr := init_lr self;
     final_lr := final_lr self;
     warmup_steps := warmup_steps self;
     hold_steps := hold_steps self;
     decay_steps := decay_steps self;
     warmup_rate := warmup_rate self;
     decay_factor := decay_factor self;
     update_steps := u;
     _last_lr := _last_lr self |}.

Definition with_last_lr (self : TriStageLRScheduler) (l : list float)
  : TriStageLRScheduler :=
  {| optimizer := optimizer self;
     lr := lr self;
     peak_lr := peak_lr self;
     init_lr := init_lr self;
     final_lr := final_lr self;
     warmup_steps := warmup_steps self;
     hold_steps := hold_steps self;
     decay_steps := decay_steps self;
     warmup_rate := warmup_rate self;
     decay_factor := decay_factor self;
     update_steps := update_steps self;
     _last_lr := Some l |}.

(** [step] statement by statement, with the object as the call leaves
    it: the outcome, a rate returned or an exception raised, and the
    scheduler, with its optimizer, when the call ends.  An assignment
    evaluates its right-hand side first: an exception raised there leaves
    the target as it was.  An exception raised by a later statement finds
    the earlier assignments done. *)
Definition step_stmts `{Libm} (self : TriStageLRScheduler)
           (val_loss : option FloatTensor)
  : result float * TriStageLRScheduler :=
  (* stage, steps_in_stage = self._decide_stage() *)
  let '(stage, steps_in_stage) := _decide_stage self in
  (* if stage == 0: self.lr = ... elif ... else: raise ValueError(...) *)
  match stage_lr self stage steps_in_stage with
  | Raise e => (Raise e, self)
  | Ok r =>
      let self1 := with_lr self r in
      (* self.set_lr(self.optimizer, self.lr) *)
      let self2 :=
        with_optimizer self1 (set_lr (optimizer self1) (lr self1)) in
      (* self.update_steps += 1 *)
      let self3 := with_update_steps self2 (update_steps self2 + 1) in
      (* self._last_lr = [group['lr'] for group in ...param_groups] *)
      match mapM group_lr (param_groups (optimizer self3)) with
      | Raise e => (Raise e, self3)
      | Ok last =>
          let self4 := with_last_lr self3 last in
          (* return self.lr *)
          (Ok (lr self4), self4)
      end
  end.

(** The schedule after [n] calls of [step] on a fresh schedule. *)
Definition fresh_after `{Libm} (a : init_args) (n : nat)
  : result TriStageLRScheduler :=
  self ← __init__ a;
  '(self', _) ← steps self (replicate n None);
  Ok self'.

(** The rates of the warmup ramp at the step counts [u], [u + 1], ...,
    [n] of them. *)
Fixpoint warmup_ramp (self : TriStageLRScheduler) (u : Z) (n : nat)
  : list float :=
  match n with
  | O => []
  | S n' =>
      (init_lr self + warmup_rate self * Z2F u)%float
      :: warmup_ramp self (u + 1) n'
  end.

(** The rates of the decay curve at the offsets [k], [k + 1], ..., [n] of
    them, each computed with [math.exp]; the first exception ends the
    computation. *)
Fixpoint decay_curve `{Libm} (self : TriStageLRScheduler) (k : Z) (n : nat)
  : result (list float) :=
  match n with
  | O => Ok []
  | S n' =>
      e ← math_exp (- decay_factor self * Z2F k)%float;
      rs ← decay_curve self (k + 1) n';
      Ok ((peak_lr self * e)%float :: rs)
  end.

(** The step count at which a stage starts. *)
Definition stage_start (self : TriStageLRScheduler) (stage : Z) : Z :=
  if stage =? 0 then 0
  else if stage =? 1 then warmup_steps self
  else if stage =? 2 then warmup_steps self + hold_steps self
  else warmup_steps self + hold_steps self + decay_steps self.

(** [peak_lr=1e-3, init_lr_scale=0.5, final_lr_scale=0.25,
    phase_ratio=(0.25, 0.25, 0.5), total_steps=8], given together with
    [init_lr=7.0], [final_lr=9.0] and the explicit lengths 50, 60, 70. *)
Definition scenario_scaled : init_args :=
  {| a_optimizer := two_groups; a_peak_lr := f1e_3;
     a_init_lr_scale := Some 0x1p-1%float; a_init_lr := 7%float;
     a_final_lr_scale := Some 0x1p-2%float; a_final_lr := 9%float;
     a_phase_ratio := Some (0x1p-2, 0x1p-2, 0x1p-1)%float;
     a_warmup_steps := 50; a_hold_steps := 60; a_decay_steps := 70;
     a_total_steps := 8 |}.

(** The scenario with [init_lr_scale=0.0], with [final_lr_scale=nan], and
    with [peak_lr=0.0]. *)
Definition scenario_zero_init_scale : init_args :=
  {| a_optimizer := two_groups; a_peak_lr := f1e_3;
     a_init_lr_scale := Some 0%float; a_init_lr := 0%float;
     a_final_lr_scale := None; a_final_lr := f1e_5;
     a_phase_ratio := None;
     a_warmup_steps := 2; a_hold_steps := 1; a_decay_steps := 2;
     a_total_steps := 0 |}.

Definition scenario_nan_final_scale : init_args :=
  {| a_optimizer := two_groups; a_peak_lr := f1e_3;
     a_init_lr_scale := None; a_init_lr := 0%float;
     a_final_lr_scale := Some nan; a_final_lr := f1e_5;
     a_phase_ratio := None;
     a_warmup_steps := 2; a_hold_steps := 1; a_decay_steps := 2;
     a_total_steps := 0 |}.

Definition scenario_zero_peak : init_args :=
  {| a_optimizer := two_groups; a_peak_lr := 0%float;
     a_init_lr_scale := None; a_init_lr := 0%float;
     a_final_lr_scale := None; a_final_lr := f1e_5;
     a_phase_ratio := None;
     a_warmup_steps := 2; a_hold_steps := 1; a_decay_steps := 2;
     a_total_steps := 0 |}.

(** * Properties *)

(** ** Numeric operations *)

(** [int_max_float] is where the conversion of an integer leaves the
    double range. *)
Example Z2F_largest :
  Z2F (int_max_float - 1) = 0x1.fffffffffffffp+1023%float /\
  Z2F int_max_float = infinity /\
  Z2F (- int_max_float) = neg_infinity.
Proof. repeat apply conj; vm_compute; reflexivity. Qed.

Example Z2F_ties_to_even :
  Z2F (2 ^ 53 + 1) = 0x1p+53%float /\ Z2F (2 ^ 53 + 3) = 0x1.0000000000002p+53%float.
Proof. split; vm_compute; reflexivity. Qed.

Example int_of_float_truncates :
  int_of_float 0x1.8p+1%float = Ok 3 /\           (* int(3.0) *)
  int_of_float 0x1.dp+1%float = Ok 3 /\           (* int(3.625) *)
  int_of_float (- 0x1.dp+1)%float = Ok (- 3) /\   (* int(-3.625) *)
  int_of_float 0x1.999999999999ap-4%float = Ok 0 /\
  int_of_float infinity = Raise OverflowError.
Proof. repeat apply conj; vm_compute; reflexivity. Qed.

(** The values of [ref_libm] at some known points. *)
Example ref_libm_values :
  RefLibm.exp 0%float = 1%float /\
  RefLibm.exp (- 0)%float = 1%float /\
  RefLibm.exp 1%float = 0x1.5bf0a8b145769p+1%float /\       (* e *)
  RefLibm.log 1%float = 0%float /\
  RefLibm.log 2%float = 0x1.62e42fefa39efp-1%float /\       (* ln 2 *)
  RefLibm.log 0x1.47ae147ae147bp-7%float
  = (- 0x1.26bb1bbb55515p+2)%float /\                        (* ln 0.01 *)
  RefLibm.log 0x1.fffffffffffffp+1023%float
  = 0x1.62e42fefa39efp+9%float /\
  RefLibm.exp 0x1.62e42fefa39efp+9%float
  = 0x1.fffffffffff2ap+1023%float /\
  RefLibm.exp 0x1.62e42fefa39f0p+9%float = infinity.
Proof. repeat apply conj; vm_compute; reflexivity. Qed.

(** [math.log] and [math.exp] with [ref_libm]. *)
Example math_log_exp_errors :
  @math_log ref_libm 0%float = Raise (ValueError "math domain error") /\
  @math_log ref_libm (- 1)%float = Raise (ValueError "math domain error") /\
  @math_log ref_libm infinity = Ok infinity /\
  @math_exp ref_libm 0x1.62e42fefa39f0p+9%float = Raise OverflowError /\
  @math_exp ref_libm infinity = Ok infinity /\
  @math_exp ref_libm (- 0x1.74p+9)%float = Ok 0x0.0000000000002p-1022%float.
Proof. repeat apply conj; vm_compute; reflexivity. Qed.

(** ** Sequencing *)

Lemma bind_Ok {A B : Type} (m : result A) (k : A -> result B) (b : B) :
  (m ≫= k) = Ok b -> exists a, m = Ok a /\ k a = Ok b.
Proof.
  destruct m as [a|e]; simpl; intros Hk.
  - exists a. split; [reflexivity | exact Hk].
  - discriminate Hk.
Qed.

Ltac inv_bind H :=
  let a := fresh "a" in
  let Ha := fresh "Ha" in
  apply bind_Ok in H; destruct H as (a & Ha & H).

Lemma assert_Ok (c : bool) (u : unit) : assert c = Ok u -> c = true.
Proof. destruct c; [reflexivity | discriminate]. Qed.

Lemma float_of_int_Ok (z : Z) (x : float) :
  float_of_int z = Ok x -> Z.abs z < int_max_float /\ x = Z2F z.
Proof.
  unfold float_of_int. destruct (Z.ltb_spec (Z.abs z) int_max_float).
  - intros [= <-]. split; [assumption | reflexivity].
  - discriminate.
Qed.

Lemma float_of_int_small (z : Z) :
  Z.abs z < int_max_float -> float_of_int z = Ok (Z2F z).
Proof.
  intros Hz. unfold float_of_int.
  destruct (Z.ltb_spec (Z.abs z) int_max_float); [reflexivity | lia].
Qed.

Lemma truediv_Ok (x y q : float) :
  truediv x y = Ok q -> (y =? 0)%float = false /\ q = (x / y)%float.
Proof.
  unfold truediv. destruct (y =? 0)%float; [discriminate |].
  intros [= <-]. split; reflexivity.
Qed.

(** ** The optimizer binding *)

Lemma set_lr_length (opt : Optimizer) (r : float) :
  length (param_groups (set_lr opt r)) = length (param_groups opt).
Proof. unfold set_lr. simpl. apply length_map. Qed.

Lemma set_lr_groups_at (opt : Optimizer) (r : float) :
  groups_at r (set_lr opt r).
Proof.
  unfold groups_at, set_lr. simpl.
  induction (param_groups opt) as [|g gs IH]; simpl; constructor.
  - apply lookup_insert_eq.
  - exact IH.
Qed.

Lemma group_lr_at (r : float) (g : gmap string float) :
  g !! "lr" = Some r -> group_lr g = Ok r.
Proof. unfold group_lr. intros ->. reflexivity. Qed.

Lemma mapM_group_lr_at (r : float) (gs : list (gmap string float)) :
  Forall (fun g : gmap string float => g !! "lr" = Some r) gs ->
  mapM group_lr gs = Ok (replicate (length gs) r).
Proof.
  induction 1 as [|g gs Hg _ IH]; simpl; [reflexivity |].
  rewrite (group_lr_at r g Hg), IH. reflexivity.
Qed.

Lemma snapshot_after_set_lr (opt : Optimizer) (r : float) :
  mapM group_lr (param_groups (set_lr opt r))
  = Ok (replicate (length (param_groups opt)) r).
Proof.
  rewrite (mapM_group_lr_at r).
  - rewrite set_lr_length. reflexivity.
  - apply set_lr_groups_at.
Qed.

(** ** Stage decision *)

Lemma decide_stage_pure (s1 s2 : TriStageLRScheduler) :
  update_steps s1 = update_steps s2 ->
  warmup_steps s1 = warmup_steps s2 ->
  hold_steps s1 = hold_steps s2 ->
  decay_steps s1 = decay_steps s2 ->
  _decide_stage s1 = _decide_stage s2.
Proof. unfold _decide_stage. intros -> -> -> ->. reflexivity. Qed.

(** C1.  With non-negative hold and decay lengths, [_decide_stage]
    returns WARMUP and the step count below [warmup_steps]; HOLD and the
    count past the warmup from there up to [warmup_steps + hold_steps]
    excluded; DECAY and the count past warmup and hold up to
    [warmup_steps + hold_steps + decay_steps] included; FINAL and the
    count past the three phases for every larger step count. *)
Theorem decide_stage_spec (self : TriStageLRScheduler) :
  0 <= hold_steps self -> 0 <= decay_steps self ->
  (update_steps self < warmup_steps self ->
   _decide_stage self = (WARMUP, update_steps self)) /\
  (warmup_steps self <= update_steps self
                     < warmup_steps self + hold_steps self ->
   _decide_stage self = (HOLD, update_steps self - warmup_steps self)) /\
  (warmup_steps self + hold_steps self <= update_steps self
     <= warmup_steps self + hold_steps self + decay_steps self ->
   _decide_stage self
   = (DECAY, update_steps self - warmup_steps self - hold_steps self)) /\
  (warmup_steps self + hold_steps self + decay_steps self
     < update_steps self ->
   _decide_stage self
   = (FINAL, update_steps self - warmup_steps self - hold_steps self
             - decay_steps self)).
Proof.
  intros Hh Hd. unfold _decide_stage, WARMUP, HOLD, DECAY, FINAL.
  repeat split; intros Hu;
    repeat match goal with
           | |- context [?a <? ?b] => destruct (Z.ltb_spec a b); try lia
           | |- context [?a <=? ?b] => destruct (Z.leb_spec a b); try lia
           end;
    f_equal; lia.
Qed.

Lemma decide_stage_spec_witness :
  (0 <= 1 /\ 0 <= 2) /\
  _decide_stage (sched 5 2 1 2) = (DECAY, 2) /\
  _decide_stage (sched 6 2 1 2) = (FINAL, 1).
Proof.
  assert (Hh : 0 <= hold_steps (sched 5 2 1 2)) by (simpl; lia).
  assert (Hd : 0 <= decay_steps (sched 5 2 1 2)) by (simpl; lia).
  split; [split; [exact Hh | exact Hd] |].
  split.
  - apply (decide_stage_spec (sched 5 2 1 2) Hh Hd). simpl. lia.
  - apply (decide_stage_spec (sched 6 2 1 2) Hh Hd). simpl. lia.
Defined.

(** The two hypotheses of [decide_stage_spec] are used: with
    [hold_steps] negative, a step below [warmup_steps] is in the WARMUP
    stage although it is within the bounds given for DECAY. *)
Example decide_stage_negative_hold :
  5 + (- 3) <= 3 <= 5 + (- 3) + 10 /\
  _decide_stage (sched 3 5 (- 3) 10) = (WARMUP, 3).
Proof. split; [lia | reflexivity]. Qed.

(** The tag and the offset on a schedule whose counter is not negative,
    whatever the phase lengths. *)
Lemma decide_stage_cases (self : TriStageLRScheduler) :
  0 <= update_steps self ->
  exists st k, _decide_stage self = (st, k) /\
    ((st = WARMUP /\ 0 <= k < warmup_steps self) \/
     (st = HOLD /\ 0 <= k) \/
     (st = DECAY /\ 0 <= k <= decay_steps self) \/
     (st = FINAL /\ 0 < k)).
Proof.
  intros Hu. unfold _decide_stage, WARMUP, HOLD, DECAY, FINAL.
  destruct (Z.ltb_spec (update_steps self) (warmup_steps self)).
  { eexists _, _. split; [reflexivity |]. left. lia. }
  destruct (Z.ltb_spec (update_steps self)
              (warmup_steps self + hold_steps self)).
  { eexists _, _. split; [reflexivity |]. right; left. lia. }
  destruct (Z.leb_spec (update_steps self)
              (warmup_steps self + hold_steps self + decay_steps self)).
  { eexists _, _. split; [reflexivity |]. right; right; left. lia. }
  eexists _, _. split; [reflexivity |]. right; right; right. lia.
Qed.

(** ** Construction and [step] *)

Section Properties.
Context `{Libm}.

Lemma step_eq (self : TriStageLRScheduler) (v : option FloatTensor) :
  step self v
  = (r ← stage_lr self (fst (_decide_stage self)) (snd (_decide_stage self));
     Ok (after_step self r, r)).
Proof.
  unfold step. destruct (_decide_stage self) as [st k].
  cbn [fst snd]. destruct (stage_lr self st k) as [r|e]; [| reflexivity].
  cbn [mbind result_bind]. rewrite snapshot_after_set_lr. reflexivity.
Qed.

Lemma step_Ok (self self' : TriStageLRScheduler) (v : option FloatTensor)
      (r : float) :
  step self v = Ok (self', r) -> self' = after_step self r.
Proof.
  rewrite step_eq. intros Hs. inv_bind Hs. injection Hs as <- <-. reflexivity.
Qed.

Lemma init_inv (a : init_args) (s : TriStageLRScheduler) :
  __init__ a = Ok s ->
  update_steps s = 0 /\ _last_lr s = None /\ lr s = init_lr s /\
  optimizer s = a_optimizer a /\ convertible s /\
  0 < warmup_steps s + hold_steps s + decay_steps s /\
  decay_steps s <> 0.
Proof.
  unfold __init__. intros Hs.
  inv_bind Hs. clear Ha.
  inv_bind Hs. destruct a1 as [final fls]. clear Ha.
  inv_bind Hs. destruct a1 as [[w h] d]. clear Ha.
  inv_bind Hs. apply assert_Ok in Ha. apply Z.ltb_lt in Ha.
  inv_bind Hs. rename Ha0 into Hwr.
  inv_bind Hs. clear Ha0.
  inv_bind Hs. rename Ha0 into Hdf.
  injection Hs as <-. simpl.
  inv_bind Hdf. apply float_of_int_Ok in Ha0 as [Hd ->].
  apply truediv_Ok in Hdf as [Hz _].
  repeat split; try assumption.
  - simpl. intros Hw. destruct (Z.eqb_spec w 0) as [-> | _]; [lia |].
    simpl in Hwr. inv_bind Hwr. apply float_of_int_Ok in Ha0 as [Hlt _].
    exact Hlt.
  - intros ->. vm_compute in Hz. discriminate Hz.
Qed.

Lemma same_config_refl (s : TriStageLRScheduler) : same_config s s.
Proof. unfold same_config. repeat split. Qed.

Lemma steps_app (s : TriStageLRScheduler) (vs us : list (option FloatTensor)) :
  steps s (vs ++ us)
  = ('(s1, rs) ← steps s vs;
     '(s2, rs') ← steps s1 us;
     Ok (s2, rs ++ rs')).
Proof.
  revert s. induction vs as [|v vs IH]; intros s; simpl.
  - destruct (steps s us) as [[s2 rs']|e]; reflexivity.
  - destruct (step s v) as [[s1 r]|e]; simpl; [| reflexivity].
    rewrite IH. destruct (steps s1 vs) as [[s2 rs]|e]; simpl; [| reflexivity].
    destruct (steps s2 us) as [[s3 rs']|e]; reflexivity.
Qed.

(** After [n] calls that return, the counter has advanced by [n], one
    rate per call has been collected, and the configuration is the one of
    the start. *)
Lemma steps_inv (s s' : TriStageLRScheduler) (vs : list (option FloatTensor))
      (rs : list float) :
  steps s vs = Ok (s', rs) ->
  same_config s s' /\
  update_steps s' = update_steps s + Z.of_nat (length vs) /\
  length rs = length vs.
Proof.
  revert s s' rs. induction vs as [|v vs IH]; intros s s' rs; simpl.
  - intros [= <- <-]. split; [apply same_config_refl |]. split; [lia | reflexivity].
  - intros Hs. inv_bind Hs. destruct a as [s1 r]. inv_bind Hs.
    destruct a as [s2 rs2]. injection Hs as <- <-.
    apply step_Ok in Ha. subst s1. apply IH in Ha0 as (Hc & Hu & Hl).
    split; [| split].
    + unfold same_config in *. simpl in Hc. exact Hc.
    + rewrite Hu. simpl. lia.
    + simpl. rewrite Hl. reflexivity.
Qed.

Lemma convertible_same_config (s s' : TriStageLRScheduler) :
  same_config s s' -> convertible s -> convertible s'.
Proof.
  unfold same_config, convertible.
  intros (_ & _ & _ & -> & _ & -> & _) Hc. exact Hc.
Qed.

(** A schedule reached from a successful construction. *)
Lemma reached_inv (a : init_args) (s0 s : TriStageLRScheduler)
      (vs : list (option FloatTensor)) (rs : list float) :
  __init__ a = Ok s0 ->
  steps s0 vs = Ok (s, rs) ->
  same_config s0 s /\ convertible s /\
  update_steps s = Z.of_nat (length vs).
Proof.
  intros Hi Hs. apply init_inv in Hi as (Hu & _ & _ & _ & Hc & _).
  apply steps_inv in Hs as (Hsame & Hus & _).
  split; [exact Hsame |]. split.
  - exact (convertible_same_config _ _ Hsame Hc).
  - rewrite Hus, Hu. lia.
Qed.

(** The rate of each stage. *)
Lemma stage_lr_warmup (self : TriStageLRScheduler) (k : Z) :
  Z.abs k < int_max_float ->
  stage_lr self WARMUP k
  = Ok (init_lr self + warmup_rate self * Z2F k)%float.
Proof.
  intros Hk. unfold stage_lr, WARMUP. simpl.
  rewrite (float_of_int_small k Hk). reflexivity.
Qed.

Lemma stage_lr_hold (self : TriStageLRScheduler) (k : Z) :
  stage_lr self HOLD k = Ok (peak_lr self).
Proof. reflexivity. Qed.

Lemma stage_lr_decay (self : TriStageLRScheduler) (k : Z) :
  Z.abs k < int_max_float ->
  stage_lr self DECAY k
  = (e ← math_exp (- decay_factor self * Z2F k)%float;
     Ok (peak_lr self * e)%float).
Proof.
  intros Hk. unfold stage_lr, DECAY. simpl.
  rewrite (float_of_int_small k Hk). reflexivity.
Qed.

Lemma stage_lr_final (self : TriStageLRScheduler) (k : Z) :
  stage_lr self FINAL k = Ok (final_lr self).
Proof. reflexivity. Qed.

End Properties.

(** ** [step] and the object it leaves *)

(** A call of [step_stmts] ends in one of two ways: the right-hand side
    of the assignment to [self.lr] raises, and the object is as before the
    call; or the call returns the rate and leaves [after_step].  The
    list comprehension of the snapshot never raises: [set_lr] has put a
    rate in every group. *)
Lemma step_stmts_eq `{Libm} (self : TriStageLRScheduler)
      (v : option FloatTensor) :
  step_stmts self v
  = match stage_lr self (fst (_decide_stage self))
            (snd (_decide_stage self)) with
    | Ok r => (Ok r, after_step self r)
    | Raise e => (Raise e, self)
    end.
Proof.
  unfold step_stmts. destruct (_decide_stage self) as [st k].
  cbn [fst snd]. destruct (stage_lr self st k) as [r|e]; [| reflexivity].
  cbn [with_lr with_optimizer with_update_steps optimizer lr].
  rewrite snapshot_after_set_lr. reflexivity.
Qed.

(** [step] is [step_stmts] without the object left by an exception. *)
Lemma step_stmts_step `{Libm} (self : TriStageLRScheduler)
      (v : option FloatTensor) :
  step self v
  = match step_stmts self v with
    | (Ok r, self') => Ok (self', r)
    | (Raise e, _) => Raise e
    end.
Proof.
  rewrite step_eq, step_stmts_eq.
  destruct (stage_lr self _ _) as [r|e]; reflexivity.
Qed.

(** ** The rate of a call *)

(** C2.  On a schedule reached from a successful construction, a call of
    [step] computes and returns: [init_lr + warmup_rate * offset] in the
    WARMUP stage; [peak_lr] in the HOLD stage; [peak_lr * e] in the DECAY
    stage, where [e] is what [math.exp(-decay_factor * offset)] returns
    (the call raises what [math.exp] raises); [final_lr] in the FINAL
    stage.  Stage and offset are those of [_decide_stage] before the
    call. *)
Theorem step_rate `{Libm} (a : init_args) (s0 s : TriStageLRScheduler)
        (vs : list (option FloatTensor)) (rs : list float)
        (v : option FloatTensor) (st k : Z) :
  __init__ a = Ok s0 ->
  steps s0 vs = Ok (s, rs) ->
  _decide_stage s = (st, k) ->
  (st = WARMUP ->
   step s v
   = Ok (after_step s (init_lr s0 + warmup_rate s0 * Z2F k)%float,
         (init_lr s0 + warmup_rate s0 * Z2F k)%float)) /\
  (st = HOLD ->
   step s v = Ok (after_step s (peak_lr s0), peak_lr s0)) /\
  (st = DECAY ->
   step s v
   = (e ← math_exp (- decay_factor s0 * Z2F k)%float;
      Ok (after_step s (peak_lr s0 * e)%float, (peak_lr s0 * e)%float))) /\
  (st = FINAL ->
   step s v = Ok (after_step s (final_lr s0), final_lr s0)).
Proof.
  intros Hi Hs Hd.
  destruct (reached_inv a s0 s vs rs Hi Hs) as (Hsame & [Hcw Hcd] & Hu).
  destruct Hsame as (Hp & Hin & Hf & _ & _ & _ & Hwr & Hdf).
  destruct (decide_stage_cases s) as (st' & k' & Hd' & Hcases); [lia |].
  rewrite Hd in Hd'. injection Hd' as <- <-.
  rewrite step_eq, Hd. cbn [fst snd].
  rewrite <- Hp, <- Hin, <- Hf, <- Hwr, <- Hdf.
  unfold WARMUP, HOLD, DECAY, FINAL in *.
  repeat split; intros ->.
  - destruct Hcases as [[_ Hk] | [[? _] | [[? _] | [? _]]]]; try discriminate.
    rewrite (stage_lr_warmup s k); [reflexivity |]. lia.
  - reflexivity.
  - destruct Hcases as [[? _] | [[? _] | [[_ Hk] | [? _]]]]; try discriminate.
    rewrite (stage_lr_decay s k); [| lia].
    destruct (math_exp _); reflexivity.
  - reflexivity.
Qed.

Lemma step_rate_witness :
  @__init__ ref_libm scenario = Ok scenario_fresh /\
  @steps ref_libm scenario_fresh [None; None; None; None]
  = Ok (scenario_after 4, take 4 scenario_rates) /\
  _decide_stage (scenario_after 4) = (DECAY, 1) /\
  @step ref_libm (scenario_after 4) None
  = Ok (scenario_after 5, 0x1.a36e2eb1c432ep-14%float).
Proof.
  assert (Hi : @__init__ ref_libm scenario = Ok scenario_fresh)
    by (vm_compute; reflexivity).
  assert (Hs : @steps ref_libm scenario_fresh [None; None; None; None]
               = Ok (scenario_after 4, take 4 scenario_rates))
    by (vm_compute; reflexivity).
  assert (Hd : _decide_stage (scenario_after 4) = (DECAY, 1))
    by (vm_compute; reflexivity).
  split; [exact Hi |]. split; [exact Hs |]. split; [exact Hd |].
  destruct (@step_rate ref_libm scenario scenario_fresh (scenario_after 4)
              [None; None; None; None] (take 4 scenario_rates) None DECAY 1
              Hi Hs Hd) as (_ & _ & Hdecay & _).
  rewrite (Hdecay eq_refl). vm_compute. reflexivity.
Defined.

(** ** The optimizer after a call *)

(** C6.  After a call of [step] that returns [r], every parameter group
    carries [r], there are as many groups as before, [get_lr] returns [r]
    (the optimizer having a first group), and [get_last_lr] returns one
    entry per group, each equal to [r]. *)
Theorem step_applies_rate `{Libm} (self self' : TriStageLRScheduler)
        (v : option FloatTensor) (r : float) :
  step self v = Ok (self', r) ->
  groups_at r (optimizer self') /\
  length (param_groups (optimizer self'))
  = length (param_groups (optimizer self)) /\
  (param_groups (optimizer self) <> [] -> get_lr self' = Ok (Some r)) /\
  get_last_lr self'
  = Ok (replicate (length (param_groups (optimizer self'))) r).
Proof.
  intros Hs. apply step_Ok in Hs. subst self'.
  pose proof (set_lr_groups_at (optimizer self) r) as Hg.
  pose proof (set_lr_length (optimizer self) r) as Hl.
  split; [exact Hg |]. split; [exact Hl |]. split.
  - intros Hne. unfold get_lr. cbn [optimizer after_step].
    unfold groups_at in Hg.
    destruct (param_groups (set_lr (optimizer self) r)) as [|g gs] eqn:Eg.
    + destruct (param_groups (optimizer self)); [congruence | discriminate Hl].
    + apply Forall_cons in Hg as [Hg _].
      rewrite (group_lr_at r g Hg). reflexivity.
  - unfold get_last_lr. cbn [_last_lr optimizer after_step].
    rewrite Hl. reflexivity.
Qed.

Lemma step_applies_rate_witness :
  @step ref_libm (scenario_after 4) None
  = Ok (scenario_after 5, 0x1.a36e2eb1c432ep-14%float) /\
  param_groups (optimizer (scenario_after 4)) <> [] /\
  get_lr (scenario_after 5) = Ok (Some 0x1.a36e2eb1c432ep-14%float) /\
  get_last_lr (scenario_after 5)
  = Ok [0x1.a36e2eb1c432ep-14%float; 0x1.a36e2eb1c432ep-14%float].
Proof.
  assert (Hs : @step ref_libm (scenario_after 4) None
               = Ok (scenario_after 5, 0x1.a36e2eb1c432ep-14%float))
    by (vm_compute; reflexivity).
  assert (Hne : param_groups (optimizer (scenario_after 4)) <> [])
    by (intros E; apply (f_equal length) in E; vm_compute in E;
        discriminate E).
  split; [exact Hs |]. split; [exact Hne |].
  destruct (@step_applies_rate ref_libm _ _ _ _ Hs) as (_ & _ & Hg & Hl).
  split; [exact (Hg Hne) |].
  rewrite Hl. vm_compute. reflexivity.
Defined.

(** With no parameter group there is no rate to read: [get_lr] returns
    [None]. *)
Lemma get_lr_no_group (self : TriStageLRScheduler) :
  param_groups (optimizer self) = [] -> get_lr self = Ok None.
Proof. unfold get_lr. intros ->. reflexivity. Qed.

(** ** The loss argument *)

(** C8.  [step] ignores [val_loss]: from the same schedule and optimizer,
    two calls with any two arguments have the same outcome (the returned
    rate and the whole resulting state, or the same exception). *)
Theorem step_ignores_loss `{Libm} (self : TriStageLRScheduler)
        (v1 v2 : option FloatTensor) :
  step self v1 = step self v2.
Proof. rewrite (step_eq self v1), (step_eq self v2). reflexivity. Qed.

Lemma steps_ignore_losses `{Libm} (vs1 vs2 : list (option FloatTensor)) :
  length vs1 = length vs2 ->
  forall self, steps self vs1 = steps self vs2.
Proof.
  revert vs2. induction vs1 as [|v1 vs1 IH]; intros [|v2 vs2] Hl self;
    try discriminate Hl; [reflexivity |].
  simpl. rewrite (step_eq self v1), <- (step_eq self v2).
  destruct (step self v2) as [[s1 r]|e]; [| reflexivity].
  simpl. rewrite (IH vs2); [reflexivity | now injection Hl].
Qed.

(** ** The step counter *)

Lemma exec_update_steps `{Libm} (c : call) (s s' : TriStageLRScheduler) :
  exec c s = Ok s' ->
  update_steps s'
  = if is_step c then update_steps s + 1 else update_steps s.
Proof.
  destruct c as [v | | | r]; simpl; intros Hc.
  - inv_bind Hc. destruct a as [s1 r]. injection Hc as <-.
    apply step_Ok in Ha. subst s1. reflexivity.
  - inv_bind Hc. injection Hc as <-. reflexivity.
  - inv_bind Hc. injection Hc as <-. reflexivity.
  - injection Hc as <-. reflexivity.
Qed.

Lemma execs_update_steps `{Libm} (cs : list call) (s s' : TriStageLRScheduler) :
  execs cs s = Ok s' ->
  update_steps s'
  = update_steps s + Z.of_nat (length (filter (fun c => is_step c = true) cs)).
Proof.
  revert s. induction cs as [|c cs IH]; intros s; simpl.
  - intros [= <-]. lia.
  - intros Hc. inv_bind Hc. apply exec_update_steps in Ha.
    apply IH in Hc. rewrite Hc, Ha.
    destruct c; simpl; rewrite ?filter_cons_True, ?filter_cons_False by
      (simpl; congruence); simpl; lia.
Qed.

(** C9 (as amended).  [update_steps] is 0 after construction; a call of
    [step] that returns adds exactly 1, and a call of [step] that raises
    leaves it as it was; no sequence of calls ([step], [get_lr],
    [get_last_lr], [set_lr]) that return decreases it, and it grows by the
    number of [step] calls in the sequence; after [n] calls of [step] that
    return on a fresh schedule it is [n]. *)
Theorem update_steps_counts `{Libm} :
  (forall a s, __init__ a = Ok s -> update_steps s = 0) /\
  (forall s v s' r,
      step s v = Ok (s', r) -> update_steps s' = update_steps s + 1) /\
  (forall s v,
      match step_stmts s v with
      | (Ok _, s') => update_steps s' = update_steps s + 1
      | (Raise _, s') => update_steps s' = update_steps s
      end) /\
  (forall cs s s',
      execs cs s = Ok s' ->
      update_steps s <= update_steps s' /\
      update_steps s'
      = update_steps s
        + Z.of_nat (length (filter (fun c => is_step c = true) cs))) /\
  (forall a s0 vs s rs,
      __init__ a = Ok s0 -> steps s0 vs = Ok (s, rs) ->
      update_steps s = Z.of_nat (length vs)).
Proof.
  split; [| split; [| split; [| split]]].
  - intros a s Hi. apply init_inv in Hi. tauto.
  - intros s v s' r Hs. apply step_Ok in Hs. subst s'. reflexivity.
  - intros s v. rewrite step_stmts_eq.
    destruct (stage_lr s _ _) as [r|e]; reflexivity.
  - intros cs s s' Hc. apply execs_update_steps in Hc. lia.
  - intros a s0 vs s rs Hi Hs.
    destruct (reached_inv a s0 s vs rs Hi Hs) as (_ & _ & Hu). exact Hu.
Qed.

Lemma update_steps_counts_witness :
  @__init__ ref_libm scenario = Ok scenario_fresh /\
  @steps ref_libm scenario_fresh [None; None; None; None]
  = Ok (scenario_after 4, take 4 scenario_rates) /\
  update_steps scenario_fresh = 0 /\
  update_steps (scenario_after 4) = 4 /\
  exists s',
    @execs ref_libm [CallGetLr; CallStep None; CallSetLr 1%float;
                     CallGetLastLr; CallStep (Some [])]
      (scenario_after 4) = Ok s' /\
    update_steps s' = 6.
Proof.
  destruct (@update_steps_counts ref_libm)
    as (Hinit & _ & _ & Hexecs & Hfresh).
  assert (Hi : @__init__ ref_libm scenario = Ok scenario_fresh)
    by (vm_compute; reflexivity).
  assert (Hs : @steps ref_libm scenario_fresh [None; None; None; None]
               = Ok (scenario_after 4, take 4 scenario_rates))
    by (vm_compute; reflexivity).
  split; [exact Hi |]. split; [exact Hs |].
  split; [exact (Hinit _ _ Hi) |].
  split; [exact (Hfresh _ _ _ _ _ Hi Hs) |].
  assert (E : exists s',
             @execs ref_libm [CallGetLr; CallStep None; CallSetLr 1%float;
                              CallGetLastLr; CallStep (Some [])]
               (scenario_after 4) = Ok s')
    by (vm_compute; eexists; reflexivity).
  destruct E as [s' E]. exists s'. split; [exact E |].
  destruct (Hexecs _ _ _ E) as [_ ->]. vm_compute. reflexivity.
Defined.

(** Not every call of [step] adds 1, and [n] calls do not always leave
    [n]: with [final_lr_scale] the largest double and [decay_steps = 11],
    eleven calls on the fresh schedule return and leave 11; the twelfth
    raises [OverflowError] at the assignment to [self.lr] and leaves the
    schedule as it was, the counter at 11 and not 12. *)
Lemma step_raise_keeps_counter :
  exists s,
    @fresh_after ref_libm scenario_huge_scale 11 = Ok s /\
    update_steps s = 11 /\
    @step ref_libm s None = Raise OverflowError /\
    @step_stmts ref_libm s None = (Raise OverflowError, s) /\
    update_steps (snd (@step_stmts ref_libm s None)) <> 12.
Proof.
  assert (M : match @fresh_after ref_libm scenario_huge_scale 11 with
              | Ok s => update_steps s = 11 /\
                        @step ref_libm s None = Raise OverflowError /\
                        @step_stmts ref_libm s None = (Raise OverflowError, s)
              | Raise _ => False
              end)
    by (vm_compute; repeat apply conj; reflexivity).
  destruct (@fresh_after ref_libm scenario_huge_scale 11) as [s|e];
    [| destruct M].
  destruct M as (Hu & Hs & Hst).
  exists s. split; [reflexivity |]. split; [exact Hu |].
  split; [exact Hs |]. split; [exact Hst |].
  rewrite Hst. cbn [snd]. rewrite Hu. discriminate.
Qed.

(** ** The snapshot of the last rates *)

Lemma exec_last_lr `{Libm} (c : call) (s s' : TriStageLRScheduler) :
  is_step c = false -> exec c s = Ok s' -> _last_lr s' = _last_lr s.
Proof.
  destruct c as [v | | | r]; simpl; intros Hc He; try discriminate Hc.
  - inv_bind He. injection He as <-. reflexivity.
  - inv_bind He. injection He as <-. reflexivity.
  - injection He as <-. reflexivity.
Qed.

Lemma execs_last_lr `{Libm} (cs : list call) (s s' : TriStageLRScheduler) :
  Forall (fun c => is_step c = false) cs ->
  execs cs s = Ok s' -> _last_lr s' = _last_lr s.
Proof.
  intros Hcs. revert s. induction Hcs as [|c cs Hc _ IH]; intros s; simpl.
  - intros [= <-]. reflexivity.
  - intros He. inv_bind He. apply IH in He. rewrite He.
    exact (exec_last_lr c s a Hc Ha).
Qed.

(** C10.  On a fresh schedule [get_last_lr] raises [AttributeError]:
    [_last_lr] does not exist before the first [step].  After a call of
    [step] that returns [r], [get_last_lr] returns the rates read back from
    the groups by that call, and still does after any calls other than
    [step]. *)
Theorem get_last_lr_spec `{Libm} :
  (forall a s0, __init__ a = Ok s0 -> get_last_lr s0 = Raise AttributeError) /\
  (forall s v s' r,
      step s v = Ok (s', r) ->
      get_last_lr s' = mapM group_lr (param_groups (optimizer s')) /\
      forall cs s'',
        Forall (fun c => is_step c = false) cs ->
        execs cs s' = Ok s'' ->
        get_last_lr s''
        = Ok (replicate (length (param_groups (optimizer s))) r)).
Proof.
  split.
  - intros a s0 Hi. apply init_inv in Hi as (_ & Hl & _).
    unfold get_last_lr. rewrite Hl. reflexivity.
  - intros s v s' r Hs. apply step_Ok in Hs. subst s'. split.
    + unfold get_last_lr. cbn [_last_lr optimizer after_step].
      rewrite snapshot_after_set_lr. reflexivity.
    + intros cs s'' Hcs He. unfold get_last_lr.
      rewrite (execs_last_lr cs _ s'' Hcs He). reflexivity.
Qed.

Lemma get_last_lr_spec_witness :
  @__init__ ref_libm scenario = Ok scenario_fresh /\
  get_last_lr scenario_fresh = Raise AttributeError /\
  @step ref_libm scenario_fresh None = Ok (scenario_after 1, 0%float) /\
  exists s'',
    @execs ref_libm [CallGetLr; CallSetLr 1%float; CallGetLastLr]
      (scenario_after 1) = Ok s'' /\
    get_last_lr s'' = Ok [0%float; 0%float].
Proof.
  destruct (@get_last_lr_spec ref_libm) as (Hfresh & Hafter).
  assert (Hi : @__init__ ref_libm scenario = Ok scenario_fresh)
    by (vm_compute; reflexivity).
  assert (Hs : @step ref_libm scenario_fresh None
               = Ok (scenario_after 1, 0%float))
    by (vm_compute; reflexivity).
  split; [exact Hi |]. split; [exact (Hfresh _ _ Hi) |].
  split; [exact Hs |].
  assert (E : exists s'',
             @execs ref_libm [CallGetLr; CallSetLr 1%float; CallGetLastLr]
               (scenario_after 1) = Ok s'')
    by (vm_compute; eexists; reflexivity).
  destruct E as [s'' E]. exists s''. split; [exact E |].
  destruct (Hafter _ _ _ _ Hs) as (_ & Hcs).
  rewrite (Hcs [CallGetLr; CallSetLr 1%float; CallGetLastLr] s''
             ltac:(repeat constructor) E).
  reflexivity.
Defined.

(** ** The FINAL stage *)

Lemma decide_stage_final (self : TriStageLRScheduler) :
  0 <= hold_steps self -> 0 <= decay_steps self ->
  warmup_steps self + hold_steps self + decay_steps self < update_steps self ->
  fst (_decide_stage self) = FINAL.
Proof.
  intros Hh Hd Hu. unfold _decide_stage, FINAL.
  destruct (Z.ltb_spec (update_steps self) (warmup_steps self)); [lia |].
  destruct (Z.ltb_spec (update_steps self)
              (warmup_steps self + hold_steps self)); [lia |].
  destruct (Z.leb_spec (update_steps self)
              (warmup_steps self + hold_steps self + decay_steps self));
    [lia | reflexivity].
Qed.

Lemma step_final `{Libm} (self : TriStageLRScheduler) (v : option FloatTensor) :
  0 <= hold_steps self -> 0 <= decay_steps self ->
  warmup_steps self + hold_steps self + decay_steps self < update_steps self ->
  step self v = Ok (after_step self (final_lr self), final_lr self).
Proof.
  intros Hh Hd Hu. rewrite step_eq, (decide_stage_final self Hh Hd Hu).
  rewrite stage_lr_final. reflexivity.
Qed.

(** Past the three phases every call returns [final_lr], from any
    schedule. *)
Lemma steps_final `{Libm} (us : list (option FloatTensor)) :
  forall self : TriStageLRScheduler,
    0 <= hold_steps self -> 0 <= decay_steps self ->
    warmup_steps self + hold_steps self + decay_steps self
      < update_steps self ->
    exists self',
      steps self us = Ok (self', replicate (length us) (final_lr self)).
Proof.
  induction us as [|u us IH]; intros self Hh Hd Hu; simpl.
  - exists self. reflexivity.
  - rewrite (step_final self u Hh Hd Hu). simpl.
    destruct (IH (after_step self (final_lr self))) as [self' Hs'];
      simpl; try assumption; [lia |].
    rewrite Hs'. simpl. exists self'. reflexivity.
Qed.

(** C5 (as amended).  On a schedule built by a successful construction,
    with non-negative hold and decay lengths: once more than
    [warmup_steps + hold_steps + decay_steps] calls of [step] have
    returned, every further call returns exactly [final_lr].  So the calls
    after the first [warmup_steps + hold_steps + decay_steps + 1] all
    return [final_lr]: of [warmup_steps + hold_steps + decay_steps + 5]
    calls, the last 4. *)
Theorem final_absorbing `{Libm} (a : init_args) (s0 s : TriStageLRScheduler)
        (vs us : list (option FloatTensor)) (rs : list float) :
  __init__ a = Ok s0 ->
  0 <= hold_steps s0 -> 0 <= decay_steps s0 ->
  steps s0 vs = Ok (s, rs) ->
  warmup_steps s0 + hold_steps s0 + decay_steps s0 < Z.of_nat (length vs) ->
  exists s',
    steps s us = Ok (s', replicate (length us) (final_lr s0)) /\
    steps s0 (vs ++ us)
    = Ok (s', rs ++ replicate (length us) (final_lr s0)).
Proof.
  intros Hi Hh Hd Hs Hn.
  destruct (reached_inv a s0 s vs rs Hi Hs) as (Hsame & _ & Hu).
  destruct Hsame as (_ & _ & Hf & Hw & Hh' & Hd' & _).
  destruct (steps_final us s) as [s' Hs']; try lia.
  exists s'. rewrite <- Hf. split; [exact Hs' |].
  rewrite steps_app, Hs. simpl. rewrite Hs'. reflexivity.
Qed.

Lemma final_absorbing_witness :
  @__init__ ref_libm scenario = Ok scenario_fresh /\
  (0 <= hold_steps scenario_fresh /\ 0 <= decay_steps scenario_fresh) /\
  @steps ref_libm scenario_fresh (replicate 6 None)
  = Ok (scenario_after 6, take 6 scenario_rates) /\
  warmup_steps scenario_fresh + hold_steps scenario_fresh
    + decay_steps scenario_fresh < 6 /\
  exists s',
    @steps ref_libm scenario_fresh (replicate 10 None)
    = Ok (s', take 6 scenario_rates ++ [f1e_5; f1e_5; f1e_5; f1e_5]).
Proof.
  assert (Hi : @__init__ ref_libm scenario = Ok scenario_fresh)
    by (vm_compute; reflexivity).
  assert (Hh : 0 <= hold_steps scenario_fresh) by (simpl; lia).
  assert (Hd : 0 <= decay_steps scenario_fresh) by (simpl; lia).
  assert (Hs : @steps ref_libm scenario_fresh (replicate 6 None)
               = Ok (scenario_after 6, take 6 scenario_rates))
    by (vm_compute; reflexivity).
  assert (Hn : warmup_steps scenario_fresh + hold_steps scenario_fresh
               + decay_steps scenario_fresh
               < Z.of_nat (length (replicate 6 (@None FloatTensor))))
    by (simpl; lia).
  split; [exact Hi |]. split; [split; [exact Hh | exact Hd] |].
  split; [exact Hs |]. split; [exact Hn |].
  destruct (@final_absorbing ref_libm scenario scenario_fresh
              (scenario_after 6) (replicate 6 None) (replicate 4 None)
              (take 6 scenario_rates) Hi Hh Hd Hs Hn) as (s' & _ & Hall).
  exists s'. exact Hall.
Defined.

(** The fifth rate from the end of the
    [warmup_steps + hold_steps + decay_steps + 5] calls is the one of the
    DECAY stage at offset [decay_steps], which [math.exp] computes; in the
    scenario it is not [final_lr]. *)
Lemma last_five_not_all_final :
  @__init__ ref_libm scenario = Ok scenario_fresh /\
  exists rs,
    @fresh_rates ref_libm scenario (2 + 1 + 2 + 5) = Ok rs /\
    length rs = 10%nat /\
    ~ Forall (fun r => r = final_lr scenario_fresh) (drop 5 rs).
Proof.
  split; [vm_compute; reflexivity |].
  eexists. split; [vm_compute; reflexivity |].
  split; [reflexivity |].
  intros Hall. apply Forall_cons in Hall as [E _].
  apply (f_equal Prim2SF) in E. vm_compute in E. discriminate E.
Qed.

(** ** Exceptions of [step] *)

Lemma math_exp_Raise `{Libm} (x : float) (e : exn) :
  math_exp x = Raise e ->
  e = OverflowError \/ e = ValueError "math domain error".
Proof.
  unfold math_exp, math_1.
  destruct (is_nan (exp x) && negb (is_nan x)).
  - intros [= <-]. right. reflexivity.
  - destruct (is_infinity (exp x) && is_finite x).
    + intros [= <-]. left. reflexivity.
    + discriminate.
Qed.

(** C7 (as amended).  On a schedule reached from a successful
    construction the stage decision yields one of the four tags and a
    non-negative offset, and [step] never raises "Undefined stage".  A call
    either returns, and then the rate, the parameter groups, the counter
    and the snapshot are all updated; or it is in the DECAY stage and
    raises what [math.exp] raises, [OverflowError] or a domain error, and
    then the schedule and its optimizer are left as they were before the
    call: nothing has been assigned. *)
Theorem step_total_but_exp `{Libm} (a : init_args) (s0 s : TriStageLRScheduler)
        (vs : list (option FloatTensor)) (rs : list float)
        (v : option FloatTensor) :
  __init__ a = Ok s0 ->
  steps s0 vs = Ok (s, rs) ->
  exists st k,
    _decide_stage s = (st, k) /\
    (st = WARMUP \/ st = HOLD \/ st = DECAY \/ st = FINAL) /\
    0 <= k /\
    step s v <> Raise (ValueError "Undefined stage") /\
    fst (step_stmts s v) <> Raise (ValueError "Undefined stage") /\
    ((exists s' r,
         step_stmts s v = (Ok r, s') /\
         step s v = Ok (s', r) /\
         lr s' = r /\
         groups_at r (optimizer s') /\
         update_steps s' = update_steps s + 1 /\
         get_last_lr s'
         = Ok (replicate (length (param_groups (optimizer s'))) r)) \/
     (st = DECAY /\
      exists e,
        math_exp (- decay_factor s * Z2F k)%float = Raise e /\
        (e = OverflowError \/ e = ValueError "math domain error") /\
        step_stmts s v = (Raise e, s) /\
        step s v = Raise e)).
Proof.
  intros Hi Hs.
  destruct (reached_inv a s0 s vs rs Hi Hs) as (_ & [Hcw Hcd] & Hu).
  destruct (decide_stage_cases s) as (st & k & Hd & Hcases); [lia |].
  exists st, k. split; [exact Hd |].
  assert (Hupd : forall r,
             stage_lr s st k = Ok r ->
             exists s' r',
               (Ok r, after_step s r) = (Ok r', s') /\
               Ok (after_step s r, r) = Ok (s', r') /\
               lr s' = r' /\
               groups_at r' (optimizer s') /\
               update_steps s' = update_steps s + 1 /\
               get_last_lr s'
               = Ok (replicate (length (param_groups (optimizer s'))) r')).
  { intros r _. exists (after_step s r), r.
    split; [reflexivity |]. split; [reflexivity |]. split; [reflexivity |].
    split; [apply set_lr_groups_at |]. split; [reflexivity |].
    unfold get_last_lr. cbn [_last_lr optimizer after_step].
    rewrite set_lr_length. reflexivity. }
  rewrite step_eq, step_stmts_eq, Hd. cbn [fst snd].
  destruct Hcases as [[-> Hk] | [[-> Hk] | [[-> Hk] | [-> Hk]]]].
  - rewrite (stage_lr_warmup s k) in * by lia. cbn [mbind result_bind fst].
    split; [tauto |]. split; [lia |]. split; [discriminate |].
    split; [discriminate |]. left. eapply Hupd. reflexivity.
  - rewrite stage_lr_hold in *. cbn [mbind result_bind fst].
    split; [tauto |]. split; [lia |]. split; [discriminate |].
    split; [discriminate |]. left. eapply Hupd. reflexivity.
  - rewrite (stage_lr_decay s k) in * by lia.
    split; [tauto |]. split; [lia |].
    destruct (math_exp (- decay_factor s * Z2F k)%float) as [x|e] eqn:Ee;
      cbn [mbind result_bind fst].
    + split; [discriminate |]. split; [discriminate |].
      left. eapply Hupd. reflexivity.
    + destruct (math_exp_Raise _ e Ee) as [-> | ->].
      * split; [discriminate |]. split; [discriminate |].
        right. split; [reflexivity |].
        exists OverflowError. auto.
      * split; [discriminate |]. split; [discriminate |].
        right. split; [reflexivity |].
        exists (ValueError "math domain error"). auto.
  - rewrite stage_lr_final in *. cbn [mbind result_bind fst].
    split; [tauto |]. split; [lia |]. split; [discriminate |].
    split; [discriminate |]. left. eapply Hupd. reflexivity.
Qed.

Lemma step_total_but_exp_witness :
  @__init__ ref_libm scenario = Ok scenario_fresh /\
  @steps ref_libm scenario_fresh [None; None; None; None]
  = Ok (scenario_after 4, take 4 scenario_rates) /\
  @step ref_libm (scenario_after 4) None
  <> Raise (ValueError "Undefined stage") /\
  fst (@step_stmts ref_libm (scenario_after 4) None)
  <> Raise (ValueError "Undefined stage").
Proof.
  assert (Hi : @__init__ ref_libm scenario = Ok scenario_fresh)
    by (vm_compute; reflexivity).
  assert (Hs : @steps ref_libm scenario_fresh [None; None; None; None]
               = Ok (scenario_after 4, take 4 scenario_rates))
    by (vm_compute; reflexivity).
  split; [exact Hi |]. split; [exact Hs |].
  destruct (@step_total_but_exp ref_libm scenario scenario_fresh
              (scenario_after 4) [None; None; None; None]
              (take 4 scenario_rates) None Hi Hs)
    as (st & k & _ & _ & _ & Hne & Hne' & _).
  split; [exact Hne | exact Hne'].
Defined.

(** A call of [step] can raise: with [final_lr_scale] the largest double
    and [decay_steps = 11], the first eleven calls return and the twelfth
    raises [OverflowError], the argument of [math.exp] having been rounded
    above the logarithm of the largest double. *)
Lemma step_raises_overflow :
  (exists s0, @__init__ ref_libm scenario_huge_scale = Ok s0) /\
  (exists rs, @fresh_rates ref_libm scenario_huge_scale 11 = Ok rs) /\
  @fresh_rates ref_libm scenario_huge_scale 12 = Raise OverflowError.
Proof.
  split; [| split].
  - eexists. vm_compute. reflexivity.
  - eexists. vm_compute. reflexivity.
  - vm_compute. reflexivity.
Qed.

(** ** Construction *)

(** No schedule is built with [decay_steps] 0: the division that computes
    [decay_factor] raises. *)
Lemma init_decay_steps_nonzero `{Libm} (a : init_args)
      (s : TriStageLRScheduler) :
  __init__ a = Ok s -> decay_steps s <> 0.
Proof. intros Hi. apply init_inv in Hi. tauto. Qed.

Lemma init_explicit_steps `{Libm} (a : init_args) (s : TriStageLRScheduler) :
  __init__ a = Ok s -> a_phase_ratio a = None ->
  warmup_steps s = a_warmup_steps a /\ hold_steps s = a_hold_steps a /\
  decay_steps s = a_decay_steps a.
Proof.
  unfold __init__. intros Hi Hp. rewrite Hp in Hi.
  inv_bind Hi. clear Ha.
  inv_bind Hi. destruct a1 as [final fls]. clear Ha.
  inv_bind Hi. destruct a1 as [[w h] d]. injection Ha as <- <- <-.
  repeat inv_bind Hi. injection Hi as <-. simpl. tauto.
Qed.

(** Whatever the C library: explicit phase lengths with [decay_steps=0]
    make the constructor raise. *)
Lemma init_no_decay_raises `{Libm} (a : init_args) :
  a_phase_ratio a = None -> a_decay_steps a = 0 ->
  exists e, __init__ a = Raise e.
Proof.
  intros Hp Hd. destruct (__init__ a) as [s|e] eqn:Hi; [| exists e; reflexivity].
  exfalso. apply (init_decay_steps_nonzero a s Hi).
  destruct (init_explicit_steps a s Hi Hp) as (_ & _ & ->). exact Hd.
Qed.

(** The two failing constructions of the specification's test list: with
    all three phase lengths 0 the assertion on their sum fails; with
    [phase_ratio=(0.1, 0.1, 0.7)] the assertion on the sum of the ratios
    fails. *)
Example init_assertions :
  @__init__ ref_libm (default_args two_groups f1e_3) = Raise AssertionError /\
  @__init__ ref_libm scenario_bad_ratio = Raise AssertionError.
Proof. split; vm_compute; reflexivity. Qed.

(** C3 (what the code does).  With [ref_libm], the scenario with
    [decay_steps=0] raises [ZeroDivisionError], although
    [warmup_steps + hold_steps = 3]; the scenario with [final_lr] left at
    its default and no [final_lr_scale] raises "math domain error": the
    logarithm of [final_lr / peak_lr = 0.0] is taken. *)
Theorem init_raises_on_defaults :
  @__init__ ref_libm scenario_no_decay = Raise ZeroDivisionError /\
  @__init__ ref_libm scenario_default_final
  = Raise (ValueError "math domain error").
Proof. split; vm_compute; reflexivity. Qed.

(** ** The concrete scenario *)

Lemma init_scenario `{Libm} :
  __init__ scenario
  = (l ← math_log (f1e_5 / f1e_3)%float; Ok (scenario_built (- l / 2)%float)).
Proof.
  unfold __init__, scenario.
  cbn [a_optimizer a_peak_lr a_init_lr_scale a_init_lr a_final_lr_scale
       a_final_lr a_phase_ratio a_warmup_steps a_hold_steps a_decay_steps
       a_total_steps mbind result_bind].
  change (truediv f1e_5 f1e_3) with (Ok (f1e_5 / f1e_3)%float).
  cbn [mbind result_bind].
  change (assert (0 <? 2 + 1 + 2)) with (Ok tt).
  cbn [mbind result_bind].
  change (if negb (2 =? 0) then
            float_of_int 2 ≫= (λ wf : float, truediv (f1e_3 - 0) wf)
          else Ok 0%float) with (Ok f5e_4).
  cbn [mbind result_bind].
  destruct (math_log (f1e_5 / f1e_3)) as [l|e]; [| reflexivity].
  cbn [mbind result_bind].
  change (float_of_int 2) with (Ok 2%float).
  cbn [mbind result_bind].
  change (truediv (- l) 2) with (Ok (- l / 2)%float).
  reflexivity.
Qed.

Ltac decide_stage_now :=
  match goal with
  | |- context [_decide_stage ?s] =>
      let d := eval vm_compute in (_decide_stage s) in
      change (_decide_stage s) with d
  end;
  cbn [fst snd].

Ltac stage_lr_now :=
  match goal with
  | |- context [stage_lr ?s ?st ?k] =>
      let r := eval vm_compute in (stage_lr s st k) in
      change (stage_lr s st k) with r
  end;
  cbn [mbind result_bind].

Lemma steps_scenario `{Libm} (df : float) :
  ('(_, rs) ← steps (scenario_built df) (replicate 6 None); Ok rs)
  = (e0 ← math_exp (- df * 0)%float;
     e1 ← math_exp (- df * 1)%float;
     e2 ← math_exp (- df * 2)%float;
     Ok [0%float; f5e_4; f1e_3;
         (f1e_3 * e0)%float; (f1e_3 * e1)%float; (f1e_3 * e2)%float]).
Proof.
  cbn [replicate steps].
  rewrite step_eq. decide_stage_now. stage_lr_now.
  rewrite step_eq. decide_stage_now. stage_lr_now.
  rewrite step_eq. decide_stage_now. stage_lr_now.
  rewrite step_eq. decide_stage_now.
  rewrite (stage_lr_decay _ 0) by (vm_compute; reflexivity).
  cbn [decay_factor peak_lr after_step scenario_built].
  change (Z2F 0) with 0%float.
  destruct (math_exp (- df * 0)) as [e0|err]; [| reflexivity].
  cbn [mbind result_bind].
  rewrite step_eq. decide_stage_now.
  rewrite (stage_lr_decay _ 1) by (vm_compute; reflexivity).
  cbn [decay_factor peak_lr after_step scenario_built].
  change (Z2F 1) with 1%float.
  destruct (math_exp (- df * 1)) as [e1|err]; [| reflexivity].
  cbn [mbind result_bind].
  rewrite step_eq. decide_stage_now.
  rewrite (stage_lr_decay _ 2) by (vm_compute; reflexivity).
  cbn [decay_factor peak_lr after_step scenario_built].
  change (Z2F 2) with 2%float.
  destruct (math_exp (- df * 2)) as [e2|err]; reflexivity.
Qed.

(** C4 (as amended).  Whatever the C library, the six rates of the
    scenario are [0.0], [5e-4], [1e-3], then
    [1e-3 * exp(-decay_factor * k)] for [k = 0, 1, 2], with
    [decay_factor = -log(1e-5/1e-3)/2]: the decay starts at offset 0 on
    the fourth call, and the sixth call is the boundary value computed
    with [exp].  The run raises what [math.log] or [math.exp] raises. *)
Theorem scenario_rates_by_formula `{Libm} :
  fresh_rates scenario 6
  = (l ← math_log (f1e_5 / f1e_3)%float;
     e0 ← math_exp (- (- l / 2) * 0)%float;
     e1 ← math_exp (- (- l / 2) * 1)%float;
     e2 ← math_exp (- (- l / 2) * 2)%float;
     Ok [0%float; f5e_4; f1e_3;
         (f1e_3 * e0)%float; (f1e_3 * e1)%float; (f1e_3 * e2)%float]).
Proof.
  unfold fresh_rates. rewrite init_scenario.
  destruct (math_log (f1e_5 / f1e_3)) as [l|e]; [| reflexivity].
  cbn [mbind result_bind]. apply steps_scenario.
Qed.

(** With [ref_libm] the seven first rates are those of
    [scenario_rates]. *)
Lemma scenario_rates_ref :
  @fresh_rates ref_libm scenario 7 = Ok scenario_rates.
Proof. vm_compute. reflexivity. Qed.

(** The six rates are not the sequence of the specification, with either
    reading of its fifth entry: the fourth rate is [1e-3], not
    [1e-3 * exp(-decay_factor)]. *)
Lemma scenario_rates_not_spec :
  (exists rs, @fresh_rates ref_libm scenario 6 = Ok rs) /\
  @fresh_rates ref_libm scenario 6 <> Ok (@spec_rates ref_libm f1e_5) /\
  @fresh_rates ref_libm scenario 6
  <> Ok (@spec_rates ref_libm (@spec_boundary ref_libm)).
Proof.
  assert (Hr : @fresh_rates ref_libm scenario 6 = Ok (take 6 scenario_rates))
    by (vm_compute; reflexivity).
  assert (H4 : forall x5, Prim2SF (nth 3 (@spec_rates ref_libm x5) 0%float)
                          = Prim2SF 0x1.a36e2eb1c432ep-14%float)
    by (intros x5; vm_compute; reflexivity).
  assert (Hneq : Prim2SF (nth 3 (take 6 scenario_rates) 0%float)
                 <> Prim2SF 0x1.a36e2eb1c432ep-14%float)
    by (vm_compute; discriminate).
  assert (Hk : forall l : list float,
             Ok (take 6 scenario_rates) = Ok l ->
             Prim2SF (nth 3 l 0%float)
             <> Prim2SF 0x1.a36e2eb1c432ep-14%float).
  { intros l E.
    assert (El : take 6 scenario_rates = l)
      by exact (f_equal (fun r => match r with
                                  | Ok l' => l'
                                  | Raise _ => l
                                  end) E).
    rewrite <- El. exact Hneq. }
  rewrite Hr. split; [eexists; reflexivity |].
  split; intros E; exact (Hk _ E (H4 _)).
Qed.

(** * Further properties *)

(** ** The stage decision, continued *)

(** X1.  With non-negative hold and decay lengths the four stages
    partition the step counts: the tag is WARMUP exactly below
    [warmup_steps], HOLD exactly from there up to
    [warmup_steps + hold_steps] excluded, DECAY exactly from there up to
    [warmup_steps + hold_steps + decay_steps] included, FINAL exactly
    beyond. *)
Theorem decide_stage_iff (self : TriStageLRScheduler) :
  0 <= hold_steps self -> 0 <= decay_steps self ->
  (fst (_decide_stage self) = WARMUP <->
   update_steps self < warmup_steps self) /\
  (fst (_decide_stage self) = HOLD <->
   warmup_steps self <= update_steps self
                     < warmup_steps self + hold_steps self) /\
  (fst (_decide_stage self) = DECAY <->
   warmup_steps self + hold_steps self <= update_steps self
     <= warmup_steps self + hold_steps self + decay_steps self) /\
  (fst (_decide_stage self) = FINAL <->
   warmup_steps self + hold_steps self + decay_steps self
     < update_steps self).
Proof.
  intros Hh Hd. unfold _decide_stage, WARMUP, HOLD, DECAY, FINAL.
  destruct (Z.ltb_spec (update_steps self) (warmup_steps self));
    [cbn [fst]; repeat split; intros; try discriminate; lia |].
  destruct (Z.ltb_spec (update_steps self)
              (warmup_steps self + hold_steps self));
    [cbn [fst]; repeat split; intros; try discriminate; lia |].
  destruct (Z.leb_spec (update_steps self)
              (warmup_steps self + hold_steps self + decay_steps self));
    cbn [fst]; repeat split; intros; try discriminate; lia.
Qed.

Lemma decide_stage_iff_witness :
  (0 <= 1 /\ 0 <= 2) /\
  (fst (_decide_stage (sched 5 2 1 2)) = DECAY <-> 2 + 1 <= 5 <= 2 + 1 + 2).
Proof.
  assert (Hh : 0 <= hold_steps (sched 5 2 1 2)) by (simpl; lia).
  assert (Hd : 0 <= decay_steps (sched 5 2 1 2)) by (simpl; lia).
  split; [split; [exact Hh | exact Hd] |].
  exact (proj1 (proj2 (proj2 (decide_stage_iff (sched 5 2 1 2) Hh Hd)))).
Defined.

(** X2.  The stage never goes back: of two schedules with the same phase
    lengths, whatever their signs, the one with the larger step count is
    in the same or a later stage. *)
Theorem decide_stage_monotone (s1 s2 : TriStageLRScheduler) :
  warmup_steps s1 = warmup_steps s2 ->
  hold_steps s1 = hold_steps s2 ->
  decay_steps s1 = decay_steps s2 ->
  update_steps s1 <= update_steps s2 ->
  fst (_decide_stage s1) <= fst (_decide_stage s2).
Proof.
  intros Hw Hh Hd Hu. unfold _decide_stage. rewrite Hw, Hh, Hd.
  repeat match goal with
         | |- context [?a <? ?b] => destruct (Z.ltb_spec a b)
         | |- context [?a <=? ?b] => destruct (Z.leb_spec a b)
         end; cbn [fst]; lia.
Qed.

Lemma decide_stage_monotone_witness :
  3 <= 7 /\
  fst (_decide_stage (sched 3 2 1 2)) <= fst (_decide_stage (sched 7 2 1 2)).
Proof.
  assert (Hu : update_steps (sched 3 2 1 2) <= update_steps (sched 7 2 1 2))
    by (simpl; lia).
  split; [exact Hu |].
  exact (decide_stage_monotone (sched 3 2 1 2) (sched 7 2 1 2)
           eq_refl eq_refl eq_refl Hu).
Defined.

(** X3.  The offset counts from the start of the stage: the step count
    is the start of the returned stage plus the returned offset, whatever
    the phase lengths. *)
Theorem decide_stage_offset (self : TriStageLRScheduler) :
  update_steps self
  = stage_start self (fst (_decide_stage self)) + snd (_decide_stage self).
Proof.
  unfold _decide_stage, stage_start.
  repeat match goal with
         | |- context [?a <? ?b] => destruct (Z.ltb_spec a b)
         | |- context [?a <=? ?b] => destruct (Z.leb_spec a b)
         end; cbn [fst snd Z.eqb Pos.eqb]; lia.
Qed.

(** X4.  A phase of length 0 and the stages: with [hold_steps] 0 (or
    negative) no step is in the HOLD stage, and with [warmup_steps] 0 no
    step from 0 on is in the WARMUP stage; but the DECAY stage is never
    empty: with [decay_steps] 0 the step at [warmup_steps + hold_steps] is
    still in it, at offset 0. *)
Theorem zero_length_phases (self : TriStageLRScheduler) :
  (hold_steps self <= 0 -> fst (_decide_stage self) <> HOLD) /\
  (warmup_steps self <= 0 -> 0 <= update_steps self ->
   fst (_decide_stage self) <> WARMUP) /\
  (0 <= hold_steps self -> 0 <= decay_steps self ->
   update_steps self = warmup_steps self + hold_steps self ->
   _decide_stage self = (DECAY, 0)).
Proof.
  unfold _decide_stage, WARMUP, HOLD, DECAY.
  split; [| split].
  - intros Hh.
    repeat match goal with
           | |- context [?a <? ?b] => destruct (Z.ltb_spec a b)
           | |- context [?a <=? ?b] => destruct (Z.leb_spec a b)
           end; cbn [fst]; try discriminate; lia.
  - intros Hw Hu.
    repeat match goal with
           | |- context [?a <? ?b] => destruct (Z.ltb_spec a b)
           | |- context [?a <=? ?b] => destruct (Z.leb_spec a b)
           end; cbn [fst]; try discriminate; lia.
  - intros Hh Hd Hu.
    repeat match goal with
           | |- context [?a <? ?b] => destruct (Z.ltb_spec a b); try lia
           | |- context [?a <=? ?b] => destruct (Z.leb_spec a b); try lia
           end.
    f_equal. lia.
Qed.

Lemma zero_length_phases_witness :
  (hold_steps (sched 2 2 0 0) <= 0 /\ 0 <= decay_steps (sched 2 2 0 0)) /\
  fst (_decide_stage (sched 2 2 0 0)) <> HOLD /\
  _decide_stage (sched 2 2 0 0) = (DECAY, 0) /\
  fst (_decide_stage (sched 0 0 1 2)) <> WARMUP.
Proof.
  assert (Hh : hold_steps (sched 2 2 0 0) <= 0) by (simpl; lia).
  assert (Hh' : 0 <= hold_steps (sched 2 2 0 0)) by (simpl; lia).
  assert (Hd : 0 <= decay_steps (sched 2 2 0 0)) by (simpl; lia).
  assert (Hw : warmup_steps (sched 0 0 1 2) <= 0) by (simpl; lia).
  assert (Hu : 0 <= update_steps (sched 0 0 1 2)) by (simpl; lia).
  split; [split; [exact Hh | exact Hd] |].
  split; [exact (proj1 (zero_length_phases (sched 2 2 0 0)) Hh) |].
  split.
  - exact (proj2 (proj2 (zero_length_phases (sched 2 2 0 0))) Hh' Hd eq_refl).
  - exact (proj1 (proj2 (zero_length_phases (sched 0 0 1 2))) Hw Hu).
Defined.

(** ** The optimizer binding, continued *)



(** X6.  The last rate set is the one that stays: setting [r1] and then
    [r2] leaves the optimizer as setting [r2] alone does; setting the same
    rate twice is setting it once. *)
Theorem set_lr_overwrites (opt : Optimizer) (r1 r2 : float) :
  set_lr (set_lr opt r1) r2 = set_lr opt r2.
Proof.
  unfold set_lr. cbn [param_groups]. f_equal.
  induction (param_groups opt) as [|g gs IH]; simpl; [reflexivity |].
  rewrite insert_insert_eq, IH. reflexivity.
Qed.

(** X7.  [get_lr] reads the optimizer, not the schedule: after [set_lr]
    on an optimizer with at least one group, [get_lr] returns the rate
    set, also where it raised [KeyError] before, while [lr] and the
    snapshot of the schedule are as they were. *)
Theorem get_lr_after_set_lr `{Libm} (self self' : TriStageLRScheduler)
        (r : float) :
  param_groups (optimizer self) <> [] ->
  exec (CallSetLr r) self = Ok self' ->
  get_lr self' = Ok (Some r) /\
  lr self' = lr self /\
  get_last_lr self' = get_last_lr self.
Proof.
  intros Hne He. cbn [exec] in He. injection He as <-.
  split; [| split; reflexivity].
  unfold get_lr. cbn [optimizer].
  pose proof (set_lr_groups_at (optimizer self) r) as Hg.
  pose proof (set_lr_length (optimizer self) r) as Hl.
  unfold groups_at in Hg.
  destruct (param_groups (set_lr (optimizer self) r)) as [|g gs].
  - destruct (param_groups (optimizer self)); [congruence | discriminate Hl].
  - apply Forall_cons in Hg as [Hg _].
    rewrite (group_lr_at r g Hg). reflexivity.
Qed.

Lemma get_lr_after_set_lr_witness :
  param_groups (optimizer (with_optimizer scenario_fresh unset_groups)) <> [] /\
  get_lr (with_optimizer scenario_fresh unset_groups) = Raise KeyError /\
  exists s',
    @exec ref_libm (CallSetLr f1e_3)
      (with_optimizer scenario_fresh unset_groups) = Ok s' /\
    get_lr s' = Ok (Some f1e_3) /\
    lr s' = 0%float.
Proof.
  assert (Hne : param_groups
                  (optimizer (with_optimizer scenario_fresh unset_groups))
                <> []) by discriminate.
  split; [exact Hne |]. split; [vm_compute; reflexivity |].
  eexists. split; [reflexivity |].
  destruct (@get_lr_after_set_lr ref_libm
              (with_optimizer scenario_fresh unset_groups) _ f1e_3 Hne
              eq_refl) as (Hg & Hlr & _).
  split; [exact Hg | exact Hlr].
Defined.

(** X8.  With no parameter group a call of [step] still returns its rate
    and keeps it in [lr], but there is no group to carry it: the snapshot
    is the empty list and [get_lr] returns [None]. *)
Theorem step_no_groups `{Libm} (self self' : TriStageLRScheduler)
        (v : option FloatTensor) (r : float) :
  param_groups (optimizer self) = [] ->
  step self v = Ok (self', r) ->
  lr self' = r /\ get_last_lr self' = Ok [] /\ get_lr self' = Ok None /\
  update_steps self' = update_steps self + 1.
Proof.
  intros Hnil Hs. apply step_Ok in Hs. subst self'.
  unfold get_last_lr, get_lr, set_lr. simpl. rewrite Hnil. simpl.
  repeat split; reflexivity.
Qed.

Lemma step_no_groups_witness :
  param_groups (optimizer (with_optimizer scenario_fresh no_groups)) = [] /\
  exists s',
    @step ref_libm (with_optimizer scenario_fresh no_groups) None
    = Ok (s', 0%float) /\
    get_last_lr s' = Ok [] /\ get_lr s' = Ok None.
Proof.
  assert (Hnil : param_groups
                   (optimizer (with_optimizer scenario_fresh no_groups)) = [])
    by reflexivity.
  split; [exact Hnil |].
  assert (Hs : exists s',
             @step ref_libm (with_optimizer scenario_fresh no_groups) None
             = Ok (s', 0%float))
    by (vm_compute; eexists; reflexivity).
  destruct Hs as [s' Hs]. exists s'. split; [exact Hs |].
  destruct (@step_no_groups ref_libm _ _ _ _ Hnil Hs) as (_ & Hl & Hg & _).
  split; [exact Hl | exact Hg].
Defined.

(** ** The configuration *)

Lemma exec_same_config `{Libm} (c : call) (s s' : TriStageLRScheduler) :
  exec c s = Ok s' -> same_config s s'.
Proof.
  destruct c as [v | | | r]; simpl; intros Hc.
  - inv_bind Hc. destruct a as [s1 r]. injection Hc as <-.
    apply step_Ok in Ha. subst s1. unfold same_config. simpl. repeat split.
  - inv_bind Hc. injection Hc as <-. apply same_config_refl.
  - inv_bind Hc. injection Hc as <-. apply same_config_refl.
  - injection Hc as <-. unfold same_config. simpl. repeat split.
Qed.

(** X9.  What [__init__] computes is never assigned again: after any
    sequence of calls of [step], [get_lr], [get_last_lr] and [set_lr] the
    three rates, the three phase lengths, [warmup_rate] and
    [decay_factor] are those of the start. *)
Theorem execs_same_config `{Libm} (cs : list call)
        (s s' : TriStageLRScheduler) :
  execs cs s = Ok s' -> same_config s s'.
Proof.
  revert s. induction cs as [|c cs IH]; intros s; simpl.
  - intros [= <-]. apply same_config_refl.
  - intros Hc. inv_bind Hc. apply exec_same_config in Ha. apply IH in Hc.
    unfold same_config in *.
    destruct Ha as (? & ? & ? & ? & ? & ? & ? & ?).
    destruct Hc as (? & ? & ? & ? & ? & ? & ? & ?).
    repeat split; congruence.
Qed.

Lemma execs_same_config_witness :
  exists s',
    @execs ref_libm [CallStep None; CallSetLr 1%float; CallGetLr;
                     CallStep None; CallGetLastLr] scenario_fresh = Ok s' /\
    same_config scenario_fresh s'.
Proof.
  assert (E : exists s',
             @execs ref_libm [CallStep None; CallSetLr 1%float; CallGetLr;
                              CallStep None; CallGetLastLr] scenario_fresh
             = Ok s')
    by (vm_compute; eexists; reflexivity).
  destruct E as [s' E]. exists s'. split; [exact E |].
  exact (@execs_same_config ref_libm _ _ _ E).
Defined.

Lemma stage_lr_same_config `{Libm} (s1 s2 : TriStageLRScheduler) (st k : Z) :
  same_config s1 s2 -> stage_lr s2 st k = stage_lr s1 st k.
Proof.
  intros (Hp & Hi & Hf & _ & _ & _ & Hw & Hd).
  unfold stage_lr. rewrite Hp, Hi, Hf, Hw, Hd. reflexivity.
Qed.

(** X10.  The rate of a call depends on the configuration and on the
    step count only: two schedules with the same configuration and the
    same [update_steps] return the same rate, or raise the same
    exception, whatever their optimizers, their current rates, their
    snapshots and the losses passed. *)
Theorem step_rate_by_counter `{Libm} (s1 s2 : TriStageLRScheduler)
        (v1 v2 : option FloatTensor) :
  same_config s1 s2 ->
  update_steps s1 = update_steps s2 ->
  (forall s1' r, step s1 v1 = Ok (s1', r) ->
                 step s2 v2 = Ok (after_step s2 r, r)) /\
  (forall e, step s1 v1 = Raise e -> step s2 v2 = Raise e).
Proof.
  intros Hc Hu.
  assert (Hd : _decide_stage s2 = _decide_stage s1).
  { destruct Hc as (_ & _ & _ & Hw & Hh & Hd & _).
    apply decide_stage_pure; congruence. }
  rewrite (step_eq s1 v1), (step_eq s2 v2), Hd.
  rewrite (stage_lr_same_config s1 s2 _ _ Hc).
  destruct (stage_lr s1 _ _) as [r|e]; cbn [mbind result_bind]; split.
  - intros s1' r' [= _ <-]. reflexivity.
  - discriminate.
  - discriminate.
  - intros e' [= <-]. reflexivity.
Qed.

Lemma step_rate_by_counter_witness :
  same_config (scenario_after 4)
    (with_optimizer (scenario_after 4) no_groups) /\
  @step ref_libm (scenario_after 4) None
  = Ok (scenario_after 5, 0x1.a36e2eb1c432ep-14%float) /\
  @step ref_libm (with_optimizer (scenario_after 4) no_groups) (Some [])
  = Ok (after_step (with_optimizer (scenario_after 4) no_groups)
          0x1.a36e2eb1c432ep-14%float,
        0x1.a36e2eb1c432ep-14%float).
Proof.
  assert (Hc : same_config (scenario_after 4)
                 (with_optimizer (scenario_after 4) no_groups))
    by (unfold same_config; repeat split).
  assert (Hs : @step ref_libm (scenario_after 4) None
               = Ok (scenario_after 5, 0x1.a36e2eb1c432ep-14%float))
    by (vm_compute; reflexivity).
  split; [exact Hc |]. split; [exact Hs |].
  exact (proj1 (@step_rate_by_counter ref_libm _ _ None (Some []) Hc eq_refl)
           _ _ Hs).
Defined.

(** ** The warmup ramp and the plateau *)

Lemma step_warmup `{Libm} (s : TriStageLRScheduler) (v : option FloatTensor) :
  convertible s ->
  0 <= update_steps s < warmup_steps s ->
  step s v
  = Ok (after_step s (init_lr s + warmup_rate s * Z2F (update_steps s))%float,
        (init_lr s + warmup_rate s * Z2F (update_steps s))%float).
Proof.
  intros [Hcw _] Hu. rewrite step_eq. unfold _decide_stage.
  destruct (Z.ltb_spec (update_steps s) (warmup_steps s)); [| lia].
  cbn [fst snd]. rewrite (stage_lr_warmup s (update_steps s)) by lia.
  reflexivity.
Qed.

Lemma step_hold `{Libm} (s : TriStageLRScheduler) (v : option FloatTensor) :
  warmup_steps s <= update_steps s < warmup_steps s + hold_steps s ->
  step s v = Ok (after_step s (peak_lr s), peak_lr s).
Proof.
  intros Hu. rewrite step_eq. unfold _decide_stage.
  destruct (Z.ltb_spec (update_steps s) (warmup_steps s)); [lia |].
  destruct (Z.ltb_spec (update_steps s) (warmup_steps s + hold_steps s));
    [| lia].
  reflexivity.
Qed.

Lemma warmup_ramp_after_step (s : TriStageLRScheduler) (r : float) (n : nat) :
  forall u, warmup_ramp (after_step s r) u n = warmup_ramp s u n.
Proof.
  induction n as [|n IH]; intros u; simpl; [reflexivity |].
  rewrite IH. reflexivity.
Qed.

Lemma warmup_run `{Libm} (vs : list (option FloatTensor)) :
  forall s : TriStageLRScheduler,
    convertible s ->
    0 <= update_steps s ->
    update_steps s + Z.of_nat (length vs) <= warmup_steps s ->
    exists s',
      steps s vs = Ok (s', warmup_ramp s (update_steps s) (length vs)) /\
      same_config s s' /\
      update_steps s' = update_steps s + Z.of_nat (length vs).
Proof.
  induction vs as [|v vs IH]; intros s Hc Hu Hn.
  - exists s. split; [reflexivity |]. split; [apply same_config_refl |].
    simpl. lia.
  - cbn [length] in Hn. cbn [steps length warmup_ramp].
    rewrite (step_warmup s v Hc) by lia. cbn [mbind result_bind].
    set (r := (init_lr s + warmup_rate s * Z2F (update_steps s))%float).
    destruct (IH (after_step s r)) as (s' & Hs' & Hsame & Hu').
    + exact Hc.
    + simpl. lia.
    + simpl. lia.
    + rewrite Hs'. cbn [mbind result_bind].
      exists s'. split; [| split].
      * rewrite warmup_ramp_after_step. reflexivity.
      * unfold same_config in *. simpl in Hsame. exact Hsame.
      * rewrite Hu'. simpl. lia.
Qed.

Lemma hold_run_state `{Libm} (us : list (option FloatTensor)) :
  forall s : TriStageLRScheduler,
    warmup_steps s <= update_steps s ->
    update_steps s + Z.of_nat (length us)
      <= warmup_steps s + hold_steps s ->
    exists s',
      steps s us = Ok (s', replicate (length us) (peak_lr s)) /\
      same_config s s' /\
      update_steps s' = update_steps s + Z.of_nat (length us).
Proof.
  induction us as [|u us IH]; intros s Hu Hn.
  - exists s. split; [reflexivity |]. split; [apply same_config_refl |].
    simpl. lia.
  - cbn [length] in Hn. cbn [steps length replicate].
    rewrite (step_hold s u) by lia. cbn [mbind result_bind].
    destruct (IH (after_step s (peak_lr s))) as (s' & Hs' & Hsame & Hu').
    + simpl. lia.
    + simpl. lia.
    + rewrite Hs'. exists s'. split; [reflexivity |]. split.
      * unfold same_config in *. simpl in Hsame. exact Hsame.
      * rewrite Hu'. simpl. lia.
Qed.

(** X11.  Warmup and plateau do not involve the C library and never
    raise: on a schedule built by a successful construction, the first
    [warmup_steps] calls return the ramp
    [init_lr + warmup_rate * i] for [i = 0, 1, ...] and the next
    [hold_steps] calls return exactly [peak_lr]. *)
Theorem warmup_hold_rates `{Libm} (a : init_args) (s0 : TriStageLRScheduler)
        (vs us : list (option FloatTensor)) :
  __init__ a = Ok s0 ->
  Z.of_nat (length vs) = warmup_steps s0 ->
  Z.of_nat (length us) = hold_steps s0 ->
  exists s',
    steps s0 (vs ++ us)
    = Ok (s', warmup_ramp s0 0 (length vs)
              ++ replicate (length us) (peak_lr s0)).
Proof.
  intros Hi Hw Hh.
  apply init_inv in Hi as (Hu0 & _ & _ & _ & Hc & _).
  destruct (warmup_run vs s0 Hc) as (s1 & Hs1 & Hsame & Hu1); try lia.
  destruct Hsame as (Hp & _ & _ & Hw1 & Hh1 & _).
  destruct (hold_run_state us s1) as (s2 & Hs2 & _); try lia.
  exists s2. rewrite steps_app, Hs1. cbn [mbind result_bind].
  rewrite Hs2, Hu0, Hp. reflexivity.
Qed.

Lemma warmup_hold_rates_witness :
  @__init__ ref_libm scenario = Ok scenario_fresh /\
  exists s',
    @steps ref_libm scenario_fresh [None; Some []; None]
    = Ok (s', [0%float; f5e_4; f1e_3]).
Proof.
  assert (Hi : @__init__ ref_libm scenario = Ok scenario_fresh)
    by (vm_compute; reflexivity).
  split; [exact Hi |].
  destruct (@warmup_hold_rates ref_libm scenario scenario_fresh
              [None; Some []] [None] Hi eq_refl eq_refl) as (s' & Hs').
  exists s'. exact Hs'.
Defined.

(** ** Construction, continued *)

Ltac inv_bind_as H a Ha :=
  apply bind_Ok in H; destruct H as (a & Ha & H).

(** The three parts of [__init__] that resolve its arguments. *)
Lemma init_parts `{Libm} (a : init_args) (s : TriStageLRScheduler) :
  __init__ a = Ok s ->
  exists l : float,
    (match a_init_lr_scale a with
     | Some sc => (0 <? sc)%float = true /\
                  init_lr s = (sc * a_peak_lr a)%float
     | None => init_lr s = a_init_lr a
     end) /\
    (match a_final_lr_scale a with
     | Some sc => (0 <? sc)%float = true /\
                  final_lr s = (sc * a_peak_lr a)%float /\
                  math_log sc = Ok l
     | None => (a_peak_lr a =? 0)%float = false /\
               final_lr s = a_final_lr a /\
               math_log (a_final_lr a / a_peak_lr a)%float = Ok l
     end) /\
    (match a_phase_ratio a with
     | Some (r0, r1, r2) =>
         0 < a_total_steps a /\
         (sum3 (r0, r1, r2) =? 1)%float = true /\
         int_of_float (Z2F (a_total_steps a) * r0)%float
         = Ok (warmup_steps s) /\
         int_of_float (Z2F (a_total_steps a) * r1)%float
         = Ok (hold_steps s) /\
         int_of_float (Z2F (a_total_steps a) * r2)%float
         = Ok (decay_steps s)
     | None => warmup_steps s = a_warmup_steps a /\
               hold_steps s = a_hold_steps a /\
               decay_steps s = a_decay_steps a
     end) /\
    peak_lr s = a_peak_lr a /\
    optimizer s = a_optimizer a /\
    lr s = init_lr s /\
    warmup_rate s
    = (if warmup_steps s =? 0 then 0%float
       else ((peak_lr s - init_lr s) / Z2F (warmup_steps s))%float) /\
    decay_factor s = (- l / Z2F (decay_steps s))%float.
Proof.
  unfold __init__. intros Hs.
  inv_bind Hs. rename a0 into init, Ha into Hinit.
  inv_bind Hs. destruct a0 as [final fls]. rename Ha into Hfinal.
  inv_bind Hs. destruct a0 as [[w h] d]. rename Ha into Hphase.
  inv_bind Hs. clear Ha.
  inv_bind Hs. rename a1 into wr, Ha into Hwr.
  inv_bind Hs. rename a1 into l, Ha into Hl.
  inv_bind Hs. rename a1 into df, Ha into Hdf.
  injection Hs as <-. cbn [init_lr final_lr warmup_steps hold_steps
                           decay_steps peak_lr optimizer lr warmup_rate
                           decay_factor].
  exists l. repeat apply conj; try reflexivity.
  - destruct (a_init_lr_scale a) as [sc|].
    + inv_bind_as Hinit u0 Hpos. apply assert_Ok in Hpos.
      injection Hinit as <-. split; [exact Hpos | reflexivity].
    + injection Hinit as <-. reflexivity.
  - destruct (a_final_lr_scale a) as [sc|].
    + inv_bind_as Hfinal u0 Hpos. apply assert_Ok in Hpos.
      injection Hfinal as <- <-. repeat split; assumption.
    + inv_bind_as Hfinal q Hq. apply truediv_Ok in Hq as [Hz ->].
      injection Hfinal as <- <-. repeat split; assumption.
  - destruct (a_phase_ratio a) as [[[r0 r1] r2]|].
    + inv_bind_as Hphase u1 Ht. apply assert_Ok in Ht. apply Z.ltb_lt in Ht.
      inv_bind_as Hphase u2 Hsum. apply assert_Ok in Hsum.
      inv_bind_as Hphase t Hconv. apply float_of_int_Ok in Hconv as [_ ->].
      inv_bind_as Hphase w' Hw'. inv_bind_as Hphase h' Hh'.
      inv_bind_as Hphase d' Hd'.
      injection Hphase as <- <- <-. repeat split; assumption.
    + injection Hphase as <- <- <-. repeat split.
  - destruct (Z.eqb_spec w 0) as [-> | Hw]; cbn [negb] in Hwr.
    + injection Hwr as <-. reflexivity.
    + inv_bind_as Hwr wf Hwf. apply float_of_int_Ok in Hwf as [_ ->].
      apply truediv_Ok in Hwr as [_ ->]. reflexivity.
  - inv_bind_as Hdf dfl Hdfl. apply float_of_int_Ok in Hdfl as [_ ->].
    apply truediv_Ok in Hdf as [_ ->]. reflexivity.
Qed.

(** X12.  How a successful construction resolves the rates: [peak_lr] and
    the optimizer are the arguments; a scale, when given, is strictly
    positive and replaces the direct rate by [scale * peak_lr] (the
    [init_lr] or [final_lr] argument is then not read); the current rate
    starts at [init_lr]. *)
Theorem init_resolves_rates `{Libm} (a : init_args) (s : TriStageLRScheduler) :
  __init__ a = Ok s ->
  peak_lr s = a_peak_lr a /\
  optimizer s = a_optimizer a /\
  lr s = init_lr s /\
  init_lr s = match a_init_lr_scale a with
              | Some sc => (sc * a_peak_lr a)%float
              | None => a_init_lr a
              end /\
  final_lr s = match a_final_lr_scale a with
               | Some sc => (sc * a_peak_lr a)%float
               | None => a_final_lr a
               end /\
  (forall sc, a_init_lr_scale a = Some sc -> (0 <? sc)%float = true) /\
  (forall sc, a_final_lr_scale a = Some sc -> (0 <? sc)%float = true).
Proof.
  intros Hi.
  destruct (init_parts a s Hi) as (l & Hinit & Hfinal & _ & Hp & Ho & Hlr & _).
  split; [exact Hp |]. split; [exact Ho |]. split; [exact Hlr |].
  destruct (a_init_lr_scale a) as [si|], (a_final_lr_scale a) as [sf|];
    repeat split; try tauto;
    intros sc [= <-] || (intros sc Hsc; discriminate Hsc); tauto.
Qed.

Lemma init_resolves_rates_witness :
  exists s,
    @__init__ ref_libm scenario_scaled = Ok s /\
    init_lr s = (0x1p-1 * f1e_3)%float /\
    final_lr s = (0x1p-2 * f1e_3)%float /\
    lr s = init_lr s.
Proof.
  assert (E : exists s, @__init__ ref_libm scenario_scaled = Ok s)
    by (vm_compute; eexists; reflexivity).
  destruct E as [s E]. exists s. split; [exact E |].
  destruct (@init_resolves_rates ref_libm scenario_scaled s E)
    as (_ & _ & Hlr & Hinit & Hfinal & _).
  split; [exact Hinit |]. split; [exact Hfinal | exact Hlr].
Defined.

(** X13.  The two derived rates of a successful construction:
    [warmup_rate] is [(peak_lr - init_lr) / warmup_steps], or 0 when
    [warmup_steps] is 0; [decay_factor] is [-l / decay_steps] where [l] is
    what [math.log] returns for [final_lr_scale], the scale given or else
    [final_lr / peak_lr]. *)
Theorem init_derived_rates `{Libm} (a : init_args) (s : TriStageLRScheduler) :
  __init__ a = Ok s ->
  warmup_rate s
  = (if warmup_steps s =? 0 then 0%float
     else ((peak_lr s - init_lr s) / Z2F (warmup_steps s))%float) /\
  exists l,
    math_log match a_final_lr_scale a with
             | Some sc => sc
             | None => (a_final_lr a / a_peak_lr a)%float
             end = Ok l /\
    decay_factor s = (- l / Z2F (decay_steps s))%float.
Proof.
  intros Hi.
  destruct (init_parts a s Hi) as (l & _ & Hfinal & _ & _ & _ & _ & Hwr & Hdf).
  split; [exact Hwr |]. exists l. split; [| exact Hdf].
  destruct (a_final_lr_scale a) as [sf|]; tauto.
Qed.

Lemma init_derived_rates_witness :
  @__init__ ref_libm scenario = Ok scenario_fresh /\
  warmup_rate scenario_fresh = ((f1e_3 - 0) / 2)%float /\
  exists l,
    @math_log ref_libm (f1e_5 / f1e_3)%float = Ok l /\
    decay_factor scenario_fresh = (- l / 2)%float.
Proof.
  assert (Hi : @__init__ ref_libm scenario = Ok scenario_fresh)
    by (vm_compute; reflexivity).
  split; [exact Hi |].
  destruct (@init_derived_rates ref_libm scenario scenario_fresh Hi)
    as (Hwr & l & Hl & Hdf).
  split; [exact Hwr |]. exists l. split; [exact Hl | exact Hdf].
Defined.

(** X14.  The phase lengths of a successful construction.  With
    [phase_ratio] given, [total_steps] is positive, the ratios sum to 1,
    each length is [int(total_steps * ratio)], truncated, and the
    [warmup_steps], [hold_steps] and [decay_steps] arguments are not read;
    without it the lengths are those arguments.  In both cases their sum
    is positive. *)
Theorem init_phase_lengths `{Libm} (a : init_args) (s : TriStageLRScheduler) :
  __init__ a = Ok s ->
  0 < warmup_steps s + hold_steps s + decay_steps s /\
  match a_phase_ratio a with
  | Some (r0, r1, r2) =>
      0 < a_total_steps a /\
      (sum3 (r0, r1, r2) =? 1)%float = true /\
      int_of_float (Z2F (a_total_steps a) * r0)%float = Ok (warmup_steps s) /\
      int_of_float (Z2F (a_total_steps a) * r1)%float = Ok (hold_steps s) /\
      int_of_float (Z2F (a_total_steps a) * r2)%float = Ok (decay_steps s)
  | None =>
      warmup_steps s = a_warmup_steps a /\
      hold_steps s = a_hold_steps a /\
      decay_steps s = a_decay_steps a
  end.
Proof.
  intros Hi.
  destruct (init_parts a s Hi) as (l & _ & _ & Hphase & _).
  apply init_inv in Hi as (_ & _ & _ & _ & _ & Hsum & _).
  split; [exact Hsum | exact Hphase].
Qed.

Lemma init_phase_lengths_witness :
  exists s,
    @__init__ ref_libm scenario_scaled = Ok s /\
    warmup_steps s = 2 /\ hold_steps s = 2 /\ decay_steps s = 4.
Proof.
  assert (E : exists s, @__init__ ref_libm scenario_scaled = Ok s)
    by (vm_compute; eexists; reflexivity).
  destruct E as [s E]. exists s. split; [exact E |].
  destruct (@init_phase_lengths ref_libm scenario_scaled s E)
    as (_ & _ & _ & Hw & Hh & Hd).
  assert (Ew : Ok (warmup_steps s) = Ok 2)
    by (rewrite <- Hw; vm_compute; reflexivity).
  assert (Eh : Ok (hold_steps s) = Ok 2)
    by (rewrite <- Hh; vm_compute; reflexivity).
  assert (Ed : Ok (decay_steps s) = Ok 4)
    by (rewrite <- Hd; vm_compute; reflexivity).
  injection Ew as Ew. injection Eh as Eh. injection Ed as Ed.
  split; [exact Ew |]. split; [exact Eh | exact Ed].
Defined.

(** X15.  A scale that is not strictly positive, zero, negative or NaN,
    fails the assertion: [init_lr_scale] whatever the other arguments,
    [final_lr_scale] once [init_lr_scale] is absent or positive. *)
Theorem init_scale_assertions `{Libm} (a : init_args) (sc : float) :
  (0 <? sc)%float = false ->
  (a_init_lr_scale a = Some sc -> __init__ a = Raise AssertionError) /\
  ((forall si, a_init_lr_scale a = Some si -> (0 <? si)%float = true) ->
   a_final_lr_scale a = Some sc -> __init__ a = Raise AssertionError).
Proof.
  intros Hneg. unfold __init__. cbv zeta. split.
  - intros ->. unfold assert. rewrite Hneg. reflexivity.
  - intros Hinit ->.
    destruct (a_init_lr_scale a) as [si|]; unfold assert.
    + rewrite (Hinit si eq_refl), Hneg. reflexivity.
    + rewrite Hneg. reflexivity.
Qed.

Lemma init_scale_assertions_witness :
  ((0 <? 0)%float = false /\ (0 <? nan)%float = false) /\
  @__init__ ref_libm scenario_zero_init_scale = Raise AssertionError /\
  @__init__ ref_libm scenario_nan_final_scale = Raise AssertionError.
Proof.
  assert (H0 : (0 <? 0)%float = false) by reflexivity.
  assert (Hn : (0 <? nan)%float = false) by reflexivity.
  split; [split; [exact H0 | exact Hn] |]. split.
  - exact (proj1 (@init_scale_assertions ref_libm scenario_zero_init_scale
                    0%float H0) eq_refl).
  - refine (proj2 (@init_scale_assertions ref_libm scenario_nan_final_scale
                     nan Hn) _ eq_refl).
    intros si Hsi. discriminate Hsi.
Defined.

(** X16.  With [peak_lr] zero and no [final_lr_scale], the division
    [final_lr / peak_lr] raises [ZeroDivisionError], once [init_lr_scale]
    is absent or positive. *)
Theorem init_zero_peak `{Libm} (a : init_args) :
  (forall si, a_init_lr_scale a = Some si -> (0 <? si)%float = true) ->
  a_final_lr_scale a = None ->
  (a_peak_lr a =? 0)%float = true ->
  __init__ a = Raise ZeroDivisionError.
Proof.
  intros Hinit Hnone Hz. unfold __init__. cbv zeta. rewrite Hnone.
  unfold truediv. rewrite Hz.
  destruct (a_init_lr_scale a) as [si|]; unfold assert.
  - rewrite (Hinit si eq_refl). reflexivity.
  - reflexivity.
Qed.

Lemma init_zero_peak_witness :
  (a_peak_lr scenario_zero_peak =? 0)%float = true /\
  @__init__ ref_libm scenario_zero_peak = Raise ZeroDivisionError.
Proof.
  assert (Hz : (a_peak_lr scenario_zero_peak =? 0)%float = true)
    by reflexivity.
  split; [exact Hz |].
  refine (@init_zero_peak ref_libm scenario_zero_peak _ eq_refl Hz).
  intros si Hsi. discriminate Hsi.
Defined.

(** X17.  The assertions on the phases, once the rates have been
    resolved without an exception: explicit lengths whose sum is not
    positive, a [total_steps] that is not positive with [phase_ratio]
    given, and ratios whose sum is not 1, each raise [AssertionError]. *)
Theorem init_phase_assertions `{Libm} (a : init_args) :
  (forall si, a_init_lr_scale a = Some si -> (0 <? si)%float = true) ->
  (forall sf, a_final_lr_scale a = Some sf -> (0 <? sf)%float = true) ->
  (a_final_lr_scale a = None -> (a_peak_lr a =? 0)%float = false) ->
  (a_phase_ratio a = None ->
   a_warmup_steps a + a_hold_steps a + a_decay_steps a <= 0 ->
   __init__ a = Raise AssertionError) /\
  (forall r, a_phase_ratio a = Some r -> a_total_steps a <= 0 ->
             __init__ a = Raise AssertionError) /\
  (forall r, a_phase_ratio a = Some r -> (sum3 r =? 1)%float = false ->
             __init__ a = Raise AssertionError).
Proof.
  intros Hinit Hfinal Hpeak.
  assert (Hi : exists init,
             match a_init_lr_scale a with
             | Some s => _ ← assert (0 <? s)%float; Ok (s * a_peak_lr a)%float
             | None => Ok (a_init_lr a)
             end = Ok init).
  { destruct (a_init_lr_scale a) as [si|]; [| eexists; reflexivity].
    unfold assert. rewrite (Hinit si eq_refl). eexists. reflexivity. }
  assert (Hf : exists p,
             match a_final_lr_scale a with
             | Some s => _ ← assert (0 <? s)%float;
                         Ok ((s * a_peak_lr a)%float, s)
             | None => q ← truediv (a_final_lr a) (a_peak_lr a);
                       Ok (a_final_lr a, q)
             end = Ok p).
  { destruct (a_final_lr_scale a) as [sf|].
    - unfold assert. rewrite (Hfinal sf eq_refl). eexists. reflexivity.
    - unfold truediv. rewrite (Hpeak eq_refl). eexists. reflexivity. }
  destruct Hi as [init Hi], Hf as [[final fls] Hf].
  unfold __init__. cbv zeta. rewrite Hi, Hf. cbn [mbind result_bind].
  split; [| split].
  - intros -> Hsum. cbn [mbind result_bind]. unfold assert.
    destruct (Z.ltb_spec 0
                (a_warmup_steps a + a_hold_steps a + a_decay_steps a));
      [lia | reflexivity].
  - intros [[r0 r1] r2] -> Ht. unfold assert at 1.
    destruct (Z.ltb_spec 0 (a_total_steps a)); [lia | reflexivity].
  - intros [[r0 r1] r2] -> Hsum. unfold assert at 1.
    destruct (0 <? a_total_steps a); [| reflexivity].
    cbn [mbind result_bind]. unfold assert at 1. rewrite Hsum. reflexivity.
Qed.

Lemma init_phase_assertions_witness :
  (a_peak_lr (default_args two_groups f1e_3) =? 0)%float = false /\
  (sum3 (0x1.999999999999ap-4, 0x1.999999999999ap-4,
         0x1.6666666666666p-1) =? 1)%float = false /\
  @__init__ ref_libm (default_args two_groups f1e_3) = Raise AssertionError /\
  @__init__ ref_libm scenario_bad_ratio = Raise AssertionError.
Proof.
  assert (Hp : (a_peak_lr (default_args two_groups f1e_3) =? 0)%float = false)
    by reflexivity.
  assert (Hs : (sum3 (0x1.999999999999ap-4, 0x1.999999999999ap-4,
                      0x1.6666666666666p-1) =? 1)%float = false)
    by reflexivity.
  split; [exact Hp |]. split; [exact Hs |]. split.
  - refine (proj1 (@init_phase_assertions ref_libm
                     (default_args two_groups f1e_3) _ _ (fun _ => Hp))
              eq_refl _).
    + intros si Hsi. discriminate Hsi.
    + intros sf Hsf. discriminate Hsf.
    + simpl. lia.
  - refine (proj2 (proj2 (@init_phase_assertions ref_libm scenario_bad_ratio
                            _ _ (fun _ => Hp))) _ eq_refl Hs).
    + intros si Hsi. discriminate Hsi.
    + intros sf Hsf. discriminate Hsf.
Defined.

Lemma math_log_domain `{Libm} (x : float) :
  is_finite x = true -> (0 <? x)%float = false ->
  math_log x = Raise (ValueError "math domain error").
Proof.
  intros Hfin Hpos. unfold math_log, math_1, m_log. rewrite Hfin, Hpos.
  assert (Hnan : is_nan x = false).
  { unfold is_finite in Hfin. destruct (is_nan x); [discriminate Hfin |].
    reflexivity. }
  destruct (x =? 0)%float.
  - change (is_nan neg_infinity) with false.
    change (is_infinity neg_infinity) with true.
    reflexivity.
  - change (is_nan nan) with true. rewrite Hnan. reflexivity.
Qed.

(** X18.  Without [final_lr_scale], no schedule is built when
    [final_lr / peak_lr] is finite and not positive, whatever the C
    library: [math.log] raises "math domain error" unless an earlier
    statement has raised.  This is the case of the default [final_lr=0]
    with a finite non-zero [peak_lr]. *)
Theorem init_log_domain `{Libm} (a : init_args) :
  a_final_lr_scale a = None ->
  is_finite (a_final_lr a / a_peak_lr a)%float = true ->
  (0 <? a_final_lr a / a_peak_lr a)%float = false ->
  exists e, __init__ a = Raise e.
Proof.
  intros Hnone Hfin Hpos.
  destruct (__init__ a) as [s|e] eqn:Hi; [| exists e; reflexivity].
  exfalso. destruct (init_parts a s Hi) as (l & _ & Hfinal & _).
  rewrite Hnone in Hfinal. destruct Hfinal as (_ & _ & Hl).
  rewrite (math_log_domain _ Hfin Hpos) in Hl. discriminate Hl.
Qed.

Lemma init_log_domain_witness :
  (is_finite (a_final_lr scenario_default_final
              / a_peak_lr scenario_default_final)%float = true /\
   (0 <? a_final_lr scenario_default_final
         / a_peak_lr scenario_default_final)%float = false) /\
  exists e, @__init__ ref_libm scenario_default_final = Raise e.
Proof.
  assert (Hfin : is_finite (a_final_lr scenario_default_final
                            / a_peak_lr scenario_default_final)%float = true)
    by reflexivity.
  assert (Hpos : (0 <? a_final_lr scenario_default_final
                       / a_peak_lr scenario_default_final)%float = false)
    by reflexivity.
  split; [split; [exact Hfin | exact Hpos] |].
  exact (@init_log_domain ref_libm scenario_default_final eq_refl Hfin Hpos).
Defined.

(** ** The whole schedule *)

Lemma step_decay `{Libm} (s : TriStageLRScheduler) (v : option FloatTensor)
      (k : Z) :
  convertible s ->
  0 <= hold_steps s ->
  0 <= k <= decay_steps s ->
  update_steps s = warmup_steps s + hold_steps s + k ->
  step s v
  = (e ← math_exp (- decay_factor s * Z2F k)%float;
     Ok (after_step s (peak_lr s * e)%float, (peak_lr s * e)%float)).
Proof.
  intros [_ Hcd] Hh Hk Hu. rewrite step_eq. unfold _decide_stage.
  destruct (Z.ltb_spec (update_steps s) (warmup_steps s)); [lia |].
  destruct (Z.ltb_spec (update_steps s) (warmup_steps s + hold_steps s));
    [lia |].
  destruct (Z.leb_spec (update_steps s)
              (warmup_steps s + hold_steps s + decay_steps s)); [| lia].
  cbn [fst snd].
  replace (update_steps s - (warmup_steps s + hold_steps s)) with k by lia.
  rewrite (stage_lr_decay s k) by lia.
  destruct (math_exp _); reflexivity.
Qed.

Lemma decay_curve_after_step `{Libm} (s : TriStageLRScheduler) (r : float)
      (n : nat) :
  forall k, decay_curve (after_step s r) k n = decay_curve s k n.
Proof.
  induction n as [|n IH]; intros k; simpl; [reflexivity |].
  rewrite IH. reflexivity.
Qed.

Lemma decay_curve_same_config `{Libm} (s1 s2 : TriStageLRScheduler) (n : nat) :
  peak_lr s2 = peak_lr s1 -> decay_factor s2 = decay_factor s1 ->
  forall k, decay_curve s2 k n = decay_curve s1 k n.
Proof.
  intros Hp Hd. induction n as [|n IH]; intros k; simpl; [reflexivity |].
  rewrite IH, Hp, Hd. reflexivity.
Qed.

Lemma decay_run `{Libm} (ds : list (option FloatTensor)) :
  forall (s : TriStageLRScheduler) (k : Z),
    convertible s ->
    0 <= hold_steps s ->
    0 <= k ->
    k + Z.of_nat (length ds) <= decay_steps s + 1 ->
    update_steps s = warmup_steps s + hold_steps s + k ->
    match decay_curve s k (length ds) with
    | Ok cs =>
        exists s',
          steps s ds = Ok (s', cs) /\
          same_config s s' /\
          update_steps s' = update_steps s + Z.of_nat (length ds)
    | Raise e => steps s ds = Raise e
    end.
Proof.
  induction ds as [|v ds IH]; intros s k Hc Hh Hk Hn Hu.
  - simpl. exists s. split; [reflexivity |].
    split; [apply same_config_refl | lia].
  - cbn [length] in Hn. cbn [steps length decay_curve].
    rewrite (step_decay s v k Hc Hh) by lia.
    destruct (math_exp (- decay_factor s * Z2F k)%float) as [e|err];
      cbn [mbind result_bind]; [| reflexivity].
    specialize (IH (after_step s (peak_lr s * e)%float) (k + 1)).
    rewrite decay_curve_after_step in IH.
    destruct (decay_curve s (k + 1) (length ds)) as [cs|err];
      cbn [mbind result_bind].
    + destruct IH as (s' & Hs' & Hsame & Hu'); try assumption;
        try (simpl; lia).
      rewrite Hs'. cbn [mbind result_bind]. exists s'.
      split; [reflexivity |]. split.
      * unfold same_config in *. simpl in Hsame. exact Hsame.
      * rewrite Hu'. simpl. lia.
    + rewrite IH; try assumption; try (simpl; lia). reflexivity.
Qed.

Lemma final_run `{Libm} (fs : list (option FloatTensor)) :
  forall s : TriStageLRScheduler,
    warmup_steps s <= update_steps s ->
    warmup_steps s + hold_steps s <= update_steps s ->
    warmup_steps s + hold_steps s + decay_steps s < update_steps s ->
    exists s', steps s fs = Ok (s', replicate (length fs) (final_lr s)).
Proof.
  induction fs as [|v fs IH]; intros s H1 H2 H3.
  - exists s. reflexivity.
  - cbn [steps length replicate]. rewrite step_eq. unfold _decide_stage.
    destruct (Z.ltb_spec (update_steps s) (warmup_steps s)); [lia |].
    destruct (Z.ltb_spec (update_steps s) (warmup_steps s + hold_steps s));
      [lia |].
    destruct (Z.leb_spec (update_steps s)
                (warmup_steps s + hold_steps s + decay_steps s)); [lia |].
    cbn [fst snd]. rewrite stage_lr_final. cbn [mbind result_bind].
    destruct (IH (after_step s (final_lr s))) as (s' & Hs');
      try (simpl; lia).
    rewrite Hs'. exists s'. reflexivity.
Qed.

(** X19.  The whole schedule.  On a schedule built by a successful
    construction, the rates of successive calls of [step] are: the warmup
    ramp, [warmup_steps] rates; then [peak_lr], [hold_steps] times; then
    the decay curve [peak_lr * exp(-decay_factor * k)] for
    [k = 0, ..., decay_steps], that is [decay_steps + 1] rates; then
    [final_lr] for ever.  Only the decay curve can raise, and the run
    raises exactly what it raises. *)
Theorem full_trajectory `{Libm} (a : init_args) (s0 : TriStageLRScheduler)
        (vs us ds fs : list (option FloatTensor)) :
  __init__ a = Ok s0 ->
  Z.of_nat (length vs) = warmup_steps s0 ->
  Z.of_nat (length us) = hold_steps s0 ->
  Z.of_nat (length ds) = decay_steps s0 + 1 ->
  ('(_, rs) ← steps s0 (vs ++ us ++ ds ++ fs); Ok rs)
  = (cs ← decay_curve s0 0 (length ds);
     Ok (warmup_ramp s0 0 (length vs)
         ++ replicate (length us) (peak_lr s0)
         ++ cs
         ++ replicate (length fs) (final_lr s0))).
Proof.
  intros Hi Hw Hh Hd.
  apply init_inv in Hi as (Hu0 & _ & _ & _ & Hc & _).
  destruct (warmup_run vs s0 Hc) as (s1 & Hs1 & Hsame1 & Hu1); try lia.
  pose proof (convertible_same_config _ _ Hsame1 Hc) as Hc1.
  destruct Hsame1 as (Hp1 & _ & Hf1 & Hw1 & Hh1 & Hd1 & _ & Hdf1).
  destruct (hold_run_state us s1) as (s2 & Hs2 & Hsame2 & Hu2); try lia.
  pose proof (convertible_same_config _ _ Hsame2 Hc1) as Hc2.
  destruct Hsame2 as (Hp2 & _ & Hf2 & Hw2 & Hh2 & Hd2 & _ & Hdf2).
  pose proof (decay_run ds s2 0 Hc2) as Hrun.
  assert (Hcurve : decay_curve s2 0 (length ds) = decay_curve s0 0 (length ds))
    by (apply decay_curve_same_config; congruence).
  rewrite Hcurve in Hrun.
  rewrite steps_app, Hs1. cbn [mbind result_bind].
  rewrite steps_app, Hs2. cbn [mbind result_bind].
  rewrite steps_app.
  destruct (decay_curve s0 0 (length ds)) as [cs|err].
  - destruct Hrun as (s3 & Hs3 & Hsame3 & Hu3); try lia.
    destruct Hsame3 as (_ & _ & Hf3 & Hw3 & Hh3 & Hd3 & _).
    rewrite Hs3. cbn [mbind result_bind].
    destruct (final_run fs s3) as (s4 & Hs4); try lia.
    rewrite Hs4. cbn [mbind result_bind].
    rewrite Hu0, Hp1, Hf3, Hf2, Hf1. reflexivity.
  - rewrite Hrun by lia. reflexivity.
Qed.

Lemma full_trajectory_witness :
  @__init__ ref_libm scenario = Ok scenario_fresh /\
  ('(_, rs) ← @steps ref_libm scenario_fresh
               ([None; None] ++ [None] ++ [None; None; None] ++ [None; None]);
   Ok rs)
  = Ok (scenario_rates ++ [f1e_5]).
Proof.
  assert (Hi : @__init__ ref_libm scenario = Ok scenario_fresh)
    by (vm_compute; reflexivity).
  split; [exact Hi |].
  rewrite (@full_trajectory ref_libm scenario scenario_fresh
             [None; None] [None] [None; None; None] [None; None]
             Hi eq_refl eq_refl eq_refl).
  vm_compute. reflexivity.
Defined.
